(** * Fitness tracker module ([homework.py]): a shallow embedding

    The module turns a workout code and a list of sensor readings into a
    dataclass instance ([read_package]), computes distance, mean speed and
    spent calories with per-class formulas, and renders the summary through
    [InfoMessage.get_message].

    Python numbers are embedded through an arithmetic interface. The
    instance [pynum] is Python's own arithmetic: [int] and binary64
    [float], with the exceptions the interpreter raises and the C library's
    [pow] as a parameter. The instance [Q] reads the same formulas over
    exact rationals: the yardstick the float results are measured against,
    not an arithmetic any run of the module computes in. *)

From Stdlib Require Import ZArith QArith Qabs Lia Lqa List Ascii String.
From Stdlib Require Import Decimal DecimalString.
From Corelib Require Import PrimFloat SpecFloat FloatOps FloatAxioms.
From stdpp Require Import base option gmap strings.

Local Open Scope string_scope.

(** stdpp seals [String.append] against [simpl]; the proofs below compute
    with literal prefixes. *)
#[local] Arguments String.append : simpl nomatch.

(** ** Exceptions and results *)

(** The exception classes the module can raise or let through.
    [Unmodelled] is not a Python exception: it marks interpreter behaviour
    that the embedding leaves out ([str] of a float, [{{] escapes in a
    template); no function of the module reaches it. *)
Inductive exn : Type :=
| ZeroDivisionError
| OverflowError
| TypeError
| ValueError (msg : string)
| NotImplementedError (msg : string)
| IndexError
| KeyError (key : string)
| Unmodelled (what : string).

Inductive result (A : Type) : Type :=
| Ok (a : A)
| Raise (e : exn).

Arguments Ok {A} a.
Arguments Raise {A} e.

Definition rbind {A B} (r : result A) (k : A -> result B) : result B :=
  match r with
  | Ok a => k a
  | Raise e => Raise e
  end.

Definition rmap {A B} (f : A -> B) (r : result A) : result B :=
  rbind r (fun a => Ok (f a)).

(** A binary operator applied to two sub-expressions: Python evaluates the
    left operand, then the right one, then the operator. *)
Definition lift2 {A B C} (op : A -> B -> result C)
    (x : result A) (y : result B) : result C :=
  rbind x (fun a => rbind y (fun b => op a b)).

Declare Scope py_scope.
Delimit Scope py_scope with py.

(** ** Decimal rendering *)

(** [str(n)] for a non-negative int. *)
Definition str_of_N (n : N) : string := NilZero.string_of_uint (N.to_uint n).

(** [str(z)] for an int. *)
Definition str_of_Z (z : Z) : string :=
  match z with
  | Zneg p => "-" ++ str_of_N (Npos p)
  | _ => str_of_N (Z.to_N z)
  end.

Definition digit_char (d : N) : ascii := ascii_of_N (48 + d mod 10).

(** The last [p] decimal digits of [n], zero padded. *)
Fixpoint frac_digits (p : nat) (n : N) : string :=
  match p with
  | O => ""
  | S p' => frac_digits p' (n / 10) ++ String (digit_char n) ""
  end.

(** Fixed-point text of the scaled integer [n = |x| * 10^p]: as in C's
    [%.pf], the point is dropped when [p = 0]. *)
Definition fixed_digits (p : nat) (n : N) : string :=
  let scale := (10 ^ N.of_nat p)%N in
  str_of_N (n / scale)
  ++ match p with
     | O => ""
     | S _ => "." ++ frac_digits p (n mod scale)
     end.

(** [num / den] rounded to the nearest integer, ties to even. *)
Definition round_half_even (num den : N) : N :=
  let q := (num / den)%N in
  let r := (num mod den)%N in
  match (2 * r ?= den)%N with
  | Lt => q
  | Gt => (q + 1)%N
  | Eq => if N.even q then q else (q + 1)%N
  end.

Definition sign_str (neg : bool) : string := if neg then "-" else "".

(** ** Python numbers: [int] and binary64 [float] *)

Inductive pynum : Type :=
| PInt (z : Z)
| PFloat (f : float).

(** The C library behind [float_pow]: what [pow(x, 2.0)] returns for a
    finite [x > 0] other than 1.0, and whether it leaves [errno] at
    [ERANGE].  The square need not be correctly rounded, and it differs
    between platforms, so it is a parameter of the model. *)
Class Libm : Type := {
  libm_pow2 : float -> float * bool
}.

Module PyFloat.

Definition sf_of_Z (z : Z) : spec_float :=
  match z with
  | Z0 => S754_zero false
  | Zpos p => S754_finite false p 0
  | Zneg p => S754_finite true p 0
  end.

(** [float(z)]: round to nearest even; an int beyond the binary64 range
    raises [OverflowError]. *)
Definition of_int (z : Z) : result float :=
  match binary_normalize prec emax z 0 false with
  | S754_infinity _ => Raise OverflowError
  | sf => Ok (SF2Prim sf)
  end.

(** [a / b] on two ints: the correctly rounded quotient. *)
Definition int_truediv (a b : Z) : result float :=
  match b with
  | Z0 => Raise ZeroDivisionError
  | _ =>
      match SFdiv prec emax (sf_of_Z a) (sf_of_Z b) with
      | S754_infinity _ => Raise OverflowError
      | sf => Ok (SF2Prim sf)
      end
  end.

(** A float literal [m * 10^-k] denotes the nearest binary64 value. *)
Definition literal (m : Z) (k : N) : float :=
  SF2Prim (SFdiv prec emax (sf_of_Z m) (sf_of_Z (10 ^ Z.of_N k))).

Definition is_zero (f : float) : bool :=
  match Prim2SF f with S754_zero _ => true | _ => false end.

Definition is_finite (f : float) : bool :=
  match Prim2SF f with
  | S754_zero _ | S754_finite _ _ _ => true
  | _ => false
  end.

(** [f > 0]. *)
Definition is_pos (f : float) : bool :=
  match Prim2SF f with
  | S754_finite false _ _ | S754_infinity false => true
  | _ => false
  end.

(** [a / b] on floats: [float_div] tests [b == 0.0] before dividing. *)
Definition truediv (a b : float) : result float :=
  if is_zero b then Raise ZeroDivisionError else Ok (a / b)%float.

Definition is_infinite (f : float) : bool :=
  match Prim2SF f with S754_infinity _ => true | _ => false end.

(** [x == 1.0], for a finite [x > 0]. *)
Definition is_one (f : float) : bool :=
  match Prim2SF f with
  | S754_finite false 4503599627370496 (-52) => true
  | _ => false
  end.

(** [_Py_ADJUST_ERANGE1]: an infinite result counts as a range error
    whatever [errno] says, and a zero result never does. *)
Definition adjust_erange (r : float) (erange : bool) : bool :=
  if erange then negb (is_zero r) else is_infinite r.

(** [x ** 2], as [float_pow] computes it: NaN, the infinities, the zeros
    and a base of absolute value 1.0 are answered without the C library;
    any other base goes to [pow] by its absolute value (the exponent is
    even, so the result is not negated), and a range error raises
    [OverflowError]. *)
Definition pow2 `{Libm} (x : float) : result float :=
  match Prim2SF x with
  | S754_nan => Ok x
  | S754_infinity _ => Ok PrimFloat.infinity
  | S754_zero _ => Ok PrimFloat.zero
  | S754_finite _ _ _ =>
      let iv := PrimFloat.abs x in
      if is_one iv then Ok PrimFloat.one
      else
        let (ix, erange) := libm_pow2 iv in
        if adjust_erange ix erange then Raise OverflowError else Ok ix
  end.

(** The exact value of a finite float (0 for the others). *)
Definition value (f : float) : Q :=
  match Prim2SF f with
  | S754_finite s m e =>
      let q := (inject_Z (Zpos m) * Qpower 2 e)%Q in
      if s then Qopp q else q
  | _ => 0%Q
  end.

(** [format(f, '.pf')]: dtoa rounds the exact binary value to [p]
    decimals, ties to even; the sign bit is kept, and infinities and
    NaN have no digits at all. *)
Definition format_f (p : nat) (f : float) : string :=
  match Prim2SF f with
  | S754_nan => "nan"
  | S754_infinity s => sign_str s ++ "inf"
  | S754_zero s => sign_str s ++ fixed_digits p 0
  | S754_finite s m e =>
      let scaled := (Npos m * 10 ^ N.of_nat p)%N in
      let n :=
        match e with
        | Zneg k => round_half_even scaled (2 ^ Npos k)
        | _ => (scaled * 2 ^ Z.to_N e)%N
        end in
      sign_str s ++ fixed_digits p n
  end.

End PyFloat.

(** ** The arithmetic interface *)

(** What the module asks of its numbers: int and float literals, [+], [*],
    [/], [** 2] and the [.pf] presentation type of [format]. *)
Class Arith (num : Type) : Type := {
  int_lit : Z -> num;
  float_lit : Z -> N -> num;
  num_add : num -> num -> result num;
  num_mul : num -> num -> result num;
  num_truediv : num -> num -> result num;
  num_pow2 : num -> result num;
  num_str : num -> result string;
  num_format_f : nat -> num -> result string
}.

Notation "$ x" := (Ok x) (at level 9, x at level 9, format "$ x") : py_scope.
Notation "x + y" := (lift2 num_add x y) : py_scope.
Notation "x * y" := (lift2 num_mul x y) : py_scope.
Notation "x / y" := (lift2 num_truediv x y) : py_scope.

(** [x ** 2] on a sub-expression. *)
Definition squared {num} `{Arith num} (x : result num) : result num :=
  rbind x num_pow2.

(** *** Python's own arithmetic *)

(** [float(x)]. *)
Definition py_float (x : pynum) : result float :=
  match x with
  | PInt z => PyFloat.of_int z
  | PFloat f => Ok f
  end.

(** A float operator on mixed operands converts the left one, then the
    right one, then computes. *)
Definition float_op (op : float -> float -> result float) (x y : pynum)
    : result pynum :=
  rbind (py_float x) (fun a =>
  rbind (py_float y) (fun b =>
  rmap PFloat (op a b))).

Definition py_add (x y : pynum) : result pynum :=
  match x, y with
  | PInt a, PInt b => Ok (PInt (a + b))
  | _, _ => float_op (fun a b => Ok (a + b)%float) x y
  end.

Definition py_mul (x y : pynum) : result pynum :=
  match x, y with
  | PInt a, PInt b => Ok (PInt (a * b))
  | _, _ => float_op (fun a b => Ok (a * b)%float) x y
  end.

Definition py_truediv (x y : pynum) : result pynum :=
  match x, y with
  | PInt a, PInt b => rmap PFloat (PyFloat.int_truediv a b)
  | _, _ => float_op PyFloat.truediv x y
  end.

Definition py_pow2 `{Libm} (x : pynum) : result pynum :=
  match x with
  | PInt a => Ok (PInt (a * a))
  | PFloat f => rmap PFloat (PyFloat.pow2 f)
  end.

Definition py_str (x : pynum) : result string :=
  match x with
  | PInt z => Ok (str_of_Z z)
  | PFloat _ => Raise (Unmodelled "str(float)")
  end.

(** [format(x, '.pf')]: an int is converted with [float(x)] first. *)
Definition py_format_f (p : nat) (x : pynum) : result string :=
  rmap (PyFloat.format_f p) (py_float x).

#[export] Instance py_arith `{Libm} : Arith pynum := {
  int_lit := PInt;
  float_lit m k := PFloat (PyFloat.literal m k);
  num_add := py_add;
  num_mul := py_mul;
  num_truediv := py_truediv;
  num_pow2 := py_pow2;
  num_str := py_str;
  num_format_f := py_format_f
}.

(** *** Exact rationals *)

(** The value the formulas have on paper; the module itself never computes
    with it. *)

Definition Q_truediv (x y : Q) : result Q :=
  if Qeq_bool y 0 then Raise ZeroDivisionError else Ok (x / y)%Q.

(** [str] of a fraction: [n/d], or [n] for an integer. *)
Definition Q_str (x : Q) : result string :=
  let r := Qred x in
  Ok (match Qden r with
      | xH => str_of_Z (Qnum r)
      | d => str_of_Z (Qnum r) ++ "/" ++ str_of_N (Npos d)
      end).

Definition Q_format_f (p : nat) (x : Q) : result string :=
  let n := round_half_even (Z.abs_N (Qnum x) * 10 ^ N.of_nat p) (Npos (Qden x)) in
  Ok (sign_str (Qnum x <? 0)%Z ++ fixed_digits p n).

#[export] Instance Q_arith : Arith Q := {
  int_lit := inject_Z;
  float_lit m k := (inject_Z m / inject_Z (10 ^ Z.of_N k))%Q;
  num_add x y := Ok (x + y)%Q;
  num_mul x y := Ok (x * y)%Q;
  num_truediv := Q_truediv;
  num_pow2 x := Ok (x * x)%Q;
  num_str := Q_str;
  num_format_f := Q_format_f
}.

(** ** [str.format] *)

(** The part of the format mini-language the module uses: replacement
    fields [{}], [{name}] and [{name:.pf}]. *)
Inductive fmt_spec : Type :=
| SpecDefault
| SpecFixed (p : nat).

Inductive piece : Type :=
| Lit (s : string)
| Field (name : string) (spec : fmt_spec).

Definition is_digit (c : ascii) : bool :=
  let n := N_of_ascii c in ((48 <=? n) && (n <=? 57))%N.

(** The digits and the closing [f] of a [.pf] specification. *)
Fixpoint parse_prec (s : string) (seen : bool) (acc : nat) : option nat :=
  match s with
  | "" => None
  | String c rest =>
      if Ascii.eqb c "f" then
        match rest with
        | "" => if seen then Some acc else None
        | _ => None
        end
      else if is_digit c then
        parse_prec rest true (10 * acc + N.to_nat (N_of_ascii c - 48))
      else None
  end.

Definition parse_spec (s : string) : option fmt_spec :=
  match s with
  | "" => Some SpecDefault
  | String c rest =>
      if Ascii.eqb c "." then SpecFixed <$> parse_prec rest false 0 else None
  end.

Inductive pstate : Type :=
| InText (acc : string)
| InName (acc : string)
| InSpec (name acc : string).

Definition snoc (s : string) (c : ascii) : string := s ++ String c "".

Definition lit_piece (acc : string) : list piece :=
  match acc with
  | "" => []
  | _ => [Lit acc]
  end.

(** One pass over the template. A lone [}] or an unclosed field is the
    [ValueError] Python raises; braces inside a field and specifications
    other than [.pf] are left out of the embedding. *)
Fixpoint parse_template (s : string) (st : pstate) : result (list piece) :=
  match s with
  | "" =>
      match st with
      | InText acc => Ok (lit_piece acc)
      | _ => Raise (ValueError "expected '}' before end of string")
      end
  | String c rest =>
      match st with
      | InText acc =>
          if Ascii.eqb c "{" then
            rmap (app (lit_piece acc)) (parse_template rest (InName ""))
          else if Ascii.eqb c "}" then
            Raise (ValueError "Single '}' encountered in format string")
          else parse_template rest (InText (snoc acc c))
      | InName acc =>
          if Ascii.eqb c "}" then
            rmap (cons (Field acc SpecDefault)) (parse_template rest (InText ""))
          else if Ascii.eqb c ":" then parse_template rest (InSpec acc "")
          else if Ascii.eqb c "{" then Raise (Unmodelled "brace in a field")
          else parse_template rest (InName (snoc acc c))
      | InSpec name acc =>
          if Ascii.eqb c "}" then
            match parse_spec acc with
            | Some spec =>
                rmap (cons (Field name spec)) (parse_template rest (InText ""))
            | None => Raise (Unmodelled "format specification")
            end
          else if Ascii.eqb c "{" then Raise (Unmodelled "brace in a field")
          else parse_template rest (InSpec name (snoc acc c))
      end
  end.

Section Format.
Context {num : Type} `{Arith num}.

(** The values the module formats. *)
Inductive pyval : Type :=
| VStr (s : string)
| VInt (z : Z)
| VNum (x : num).

(** [format(v, spec)]. *)
Definition format_value (spec : fmt_spec) (v : pyval) : result string :=
  match spec, v with
  | SpecDefault, VStr s => Ok s
  | SpecDefault, VInt z => Ok (str_of_Z z)
  | SpecDefault, VNum x => num_str x
  | SpecFixed _, VStr _ =>
      Raise (ValueError "Unknown format code 'f' for object of type 'str'")
  | SpecFixed p, VInt z => num_format_f p (int_lit z)
  | SpecFixed p, VNum x => num_format_f p x
  end.

Fixpoint lookup_kwarg (name : string) (kwargs : list (string * pyval)) : option pyval :=
  match kwargs with
  | [] => None
  | (k, v) :: rest => if String.eqb k name then Some v else lookup_kwarg name rest
  end.

(** Fields are filled left to right: an empty name takes the next
    positional argument, a name is looked up among the keywords. *)
Fixpoint render (ps : list piece) (args : list pyval)
    (kwargs : list (string * pyval)) : result string :=
  match ps with
  | [] => Ok ""
  | Lit s :: rest => rmap (append s) (render rest args kwargs)
  | Field "" spec :: rest =>
      match args with
      | [] => Raise IndexError
      | v :: args' =>
          rbind (format_value spec v) (fun t =>
          rmap (append t) (render rest args' kwargs))
      end
  | Field name spec :: rest =>
      match lookup_kwarg name kwargs with
      | None => Raise (KeyError name)
      | Some v =>
          rbind (format_value spec v) (fun t =>
          rmap (append t) (render rest args kwargs))
      end
  end.

(** [template.format] applied to positional and keyword arguments. *)
Definition str_format (template : string) (args : list pyval)
    (kwargs : list (string * pyval)) : result string :=
  rbind (parse_template template (InText "")) (fun ps => render ps args kwargs).

End Format.

Arguments pyval num : clear implicits.

(** ** The dataclasses *)

Inductive cls : Type :=
| TrainingCls
| RunningCls
| SportsWalkingCls
| SwimmingCls.

(** [cls.__name__]. *)
Definition class_name (c : cls) : string :=
  match c with
  | TrainingCls => "Training"
  | RunningCls => "Running"
  | SportsWalkingCls => "SportsWalking"
  | SwimmingCls => "Swimming"
  end.

Definition base (c : cls) : option cls :=
  match c with
  | TrainingCls => None
  | _ => Some TrainingCls
  end.

(** The fields a class body declares itself. *)
Definition own_fields (c : cls) : list string :=
  match c with
  | TrainingCls => ["action"; "duration"; "weight"]
  | RunningCls => []
  | SportsWalkingCls => ["height"]
  | SwimmingCls => ["length_pool"; "count_pool"]
  end.

(** [dataclasses.fields(c)], by name: the base class's fields come first. *)
Definition fields (c : cls) : list string :=
  match base c with
  | Some b => own_fields b ++ own_fields c
  | None => own_fields c
  end.

Section Workouts.
Context {num : Type} `{Arith num}.

Record InfoMessage : Type := {
  training_type : string;
  info_duration : num;
  distance : num;
  speed : num;
  calories : num
}.

Definition INFO : string :=
  "Тип тренировки: {training_type}; "
  ++ "Длительность: {duration:.3f} ч.; "
  ++ "Дистанция: {distance:.3f} км; "
  ++ "Ср. скорость: {speed:.3f} км/ч; "
  ++ "Потрачено ккал: {calories:.3f}.".

Definition info_asdict (self : InfoMessage) : list (string * pyval num) :=
  [("training_type", VStr (training_type self));
   ("duration", VNum (info_duration self));
   ("distance", VNum (distance self));
   ("speed", VNum (speed self));
   ("calories", VNum (calories self))].

Definition get_message (self : InfoMessage) : result string :=
  str_format INFO [] (info_asdict self).

(** An instance of [Training] or of one of its subclasses. *)
Inductive training : Type :=
| Training (action duration weight : num)
| Running (action duration weight : num)
| SportsWalking (action duration weight height : num)
| Swimming (action duration weight length_pool count_pool : num).

Definition class_of (self : training) : cls :=
  match self with
  | Training _ _ _ => TrainingCls
  | Running _ _ _ => RunningCls
  | SportsWalking _ _ _ _ => SportsWalkingCls
  | Swimming _ _ _ _ _ => SwimmingCls
  end.

Definition action (self : training) : num :=
  match self with
  | Training a _ _ | Running a _ _ | SportsWalking a _ _ _
  | Swimming a _ _ _ _ => a
  end.

Definition duration (self : training) : num :=
  match self with
  | Training _ d _ | Running _ d _ | SportsWalking _ d _ _
  | Swimming _ d _ _ _ => d
  end.

Definition weight (self : training) : num :=
  match self with
  | Training _ _ w | Running _ _ w | SportsWalking _ _ w _
  | Swimming _ _ w _ _ => w
  end.

(** [dataclasses.asdict(self)]. *)
Definition asdict (self : training) : list (string * num) :=
  match self with
  | Training a d w | Running a d w =>
      [("action", a); ("duration", d); ("weight", w)]
  | SportsWalking a d w h =>
      [("action", a); ("duration", d); ("weight", w); ("height", h)]
  | Swimming a d w lp cp =>
      [("action", a); ("duration", d); ("weight", w);
       ("length_pool", lp); ("count_pool", cp)]
  end.

(** The generated [__init__] called on the unpacked [data]: one positional
    argument per field, and a [TypeError] for any other count. *)
Definition init (c : cls) (data : list num) : result training :=
  match c, data with
  | TrainingCls, [a; d; w] => Ok (Training a d w)
  | RunningCls, [a; d; w] => Ok (Running a d w)
  | SportsWalkingCls, [a; d; w; h] => Ok (SportsWalking a d w h)
  | SwimmingCls, [a; d; w; lp; cp] => Ok (Swimming a d w lp cp)
  | _, _ => Raise TypeError
  end.

(** *** Class attributes *)

(** [Swimming] overrides [LEN_STEP]; the other classes inherit it. *)
Definition LEN_STEP (c : cls) : num :=
  match c with
  | SwimmingCls => float_lit 138 2
  | _ => float_lit 65 2
  end.

Definition M_IN_KM : num := int_lit 1000.
Definition MIN_IN_HOUR : num := int_lit 60.
Definition SPENT_CALORIES_ERROR : string :=
  "Определите get_spent_calories в {}.".

Definition CALORIES_MEAN_SPEED_MULTIPLIER : num := int_lit 18.
Definition CALORIES_MEAN_SPEED_SHIFT : num := float_lit 179 2.

Definition WEIGHT_MULTIPLIER_1 : num := float_lit 35 3.
Definition WEIGHT_MULTIPLIER_2 : num := float_lit 29 3.
Definition KMH_TO_MPS_MULTIPLIER : num := float_lit 278 3.
Definition SENTIMETERS_IN_METER : num := int_lit 100.

Definition MEAN_SPEED_TERM : num := float_lit 11 1.
Definition WEIGHT_MULTIPLIER : num := int_lit 2.

(** *** Methods *)

Definition get_distance (self : training) : result num :=
  ($(action self) * $(LEN_STEP (class_of self)) / $M_IN_KM)%py.

(** [Swimming] overrides [get_mean_speed]. *)
Definition get_mean_speed (self : training) : result num :=
  match self with
  | Swimming _ d _ length_pool count_pool =>
      ($length_pool * $count_pool / $M_IN_KM / $d)%py
  | _ => (get_distance self / $(duration self))%py
  end.

Definition get_spent_calories (self : training) : result num :=
  match self with
  | Training _ _ _ =>
      rbind (str_format SPENT_CALORIES_ERROR
               [VStr (class_name (class_of self))] [])
            (fun msg => Raise (NotImplementedError msg))
  | Running _ d w =>
      (($CALORIES_MEAN_SPEED_MULTIPLIER
          * get_mean_speed self
          + $CALORIES_MEAN_SPEED_SHIFT)
       * $w
       / $M_IN_KM
       * $d
       * $MIN_IN_HOUR)%py
  | SportsWalking _ d w height =>
      (($WEIGHT_MULTIPLIER_1 * $w
          + (squared (get_mean_speed self * $KMH_TO_MPS_MULTIPLIER)
             / ($height / $SENTIMETERS_IN_METER))
            * $WEIGHT_MULTIPLIER_2
            * $w)
       * ($d * $MIN_IN_HOUR))%py
  | Swimming _ d w _ _ =>
      ((get_mean_speed self + $MEAN_SPEED_TERM)
       * $WEIGHT_MULTIPLIER
       * $w
       * $d)%py
  end.

(** The arguments of [InfoMessage(...)] are evaluated in order. *)
Definition show_training_info (self : training) : result InfoMessage :=
  rbind (get_distance self) (fun dist =>
  rbind (get_mean_speed self) (fun sp =>
  rbind (get_spent_calories self) (fun cal =>
  Ok {| training_type := class_name (class_of self);
        info_duration := duration self;
        distance := dist;
        speed := sp;
        calories := cal |}))).

(** *** The registry and [read_package] *)

Definition TRAINING_DATA : gmap string (cls * nat) :=
  {[ "SWM" := (SwimmingCls, length (fields SwimmingCls));
     "RUN" := (RunningCls, length (fields RunningCls));
     "WLK" := (SportsWalkingCls, length (fields SportsWalkingCls)) ]}.

Definition WORKOUT_TYPE_ERROR : string := "Тип тренировки {} не найден".
Definition WORKOUT_LEN_ERROR : string :=
  "Неверное число аргументов тренировки {}. "
  ++ "Получено {}, ожидается {}".

(** [len(...)] as a value to format. *)
Definition VLen (n : nat) : pyval num := VInt (Z.of_nat n).

Definition read_package (workout_type : string) (data : list num)
    : result training :=
  match TRAINING_DATA !! workout_type with
  | None =>
      rbind (str_format WORKOUT_TYPE_ERROR [VStr workout_type] [])
            (fun msg => Raise (ValueError msg))
  | Some (c, n) =>
      if negb (n =? length data)%nat then
        rbind (str_format WORKOUT_LEN_ERROR
                 [VStr workout_type; VLen (length data); VLen n] [])
              (fun msg => Raise (ValueError msg))
      else init c data
  end.

(** [main] prints one line: the embedding returns it. *)
Definition main (self : training) : result string :=
  rbind (show_training_info self) get_message.

End Workouts.

Arguments InfoMessage num : clear implicits.
Arguments training num : clear implicits.

(** ** The batch of the [__main__] block *)

(** A C library whose [pow] rounds the square correctly and reports no
    range error of its own.  The statements below that fix no library
    hold for every one; this one is the platform of the closed examples. *)
#[export] Instance correctly_rounded_libm : Libm := {
  libm_pow2 x := ((x * x)%float, false)
}.

Definition packages : list (string * list pynum) :=
  [("SWM", [PInt 720; PInt 1; PInt 80; PInt 25; PInt 40]);
   ("RUN", [PInt 15000; PInt 1; PInt 75]);
   ("WLK", [PInt 9000; PInt 1; PInt 75; PInt 180])].

(** The lines printed so far, or the exception that ends the run. *)
Fixpoint run_packages `{Libm} (ps : list (string * list pynum))
    : result (list string) :=
  match ps with
  | [] => Ok []
  | (workout_type, data) :: rest =>
      rbind (read_package workout_type data) (fun t =>
      rbind (main t) (fun line =>
      rmap (cons line) (run_packages rest)))
  end.

(** ** Vocabulary of the statements *)

(** The two messages of [read_package], as plain concatenations. *)
Definition type_error_text (code : string) : string :=
  "Тип тренировки " ++ code ++ " не найден".

Definition len_error_text (code : string) (received expected : nat) : string :=
  "Неверное число аргументов тренировки " ++ code
  ++ ". Получено " ++ str_of_Z (Z.of_nat received)
  ++ ", ожидается " ++ str_of_Z (Z.of_nat expected).

(** The line of [InfoMessage.INFO] with its five fields filled in. *)
Definition info_text (ty du di sp ca : string) : string :=
  "Тип тренировки: " ++ ty
  ++ "; Длительность: " ++ du
  ++ " ч.; Дистанция: " ++ di
  ++ " км; Ср. скорость: " ++ sp
  ++ " км/ч; Потрачено ккал: " ++ ca ++ ".".

Fixpoint all_digits (s : string) : bool :=
  match s with
  | "" => true
  | String c r => is_digit c && all_digits r
  end.

(** Digits (at least one, counting those [seen]), a point, and exactly
    three digits up to the end of the string. *)
Fixpoint fixed3_digits (s : string) (seen : bool) : bool :=
  match s with
  | "" => false
  | String c r =>
      if is_digit c then fixed3_digits r true
      else if Ascii.eqb c "." then
        seen && match r with
                | String d1 (String d2 (String d3 "")) =>
                    is_digit d1 && is_digit d2 && is_digit d3
                | _ => false
                end
      else false
  end.

(** Fixed-point notation with exactly three digits after the point, with
    an optional minus sign. *)
Definition is_fixed3 (s : string) : bool :=
  match s with
  | String c r =>
      if Ascii.eqb c "-" then fixed3_digits r false else fixed3_digits s false
  | "" => false
  end.

(** [float(x)] succeeds and is neither an infinity nor NaN. *)
Definition py_finite (x : pynum) : bool :=
  match py_float x with
  | Ok f => PyFloat.is_finite f
  | Raise _ => false
  end.

(** The binary64 value of the decimal literal [m * 10^-k]. *)
Definition f64 (m : Z) (k : N) : float := PyFloat.literal m k.

(** The call returns the rational [v]. *)
Definition returns_Q (r : result Q) (v : Q) : Prop :=
  exists c : Q, r = Ok c /\ (c == v)%Q.

(** The call returns a finite float within [eps] of the rational [v]. *)
Definition returns_near (r : result pynum) (v eps : Q) : Prop :=
  exists x : float,
    r = Ok (PFloat x)
    /\ PyFloat.is_finite x = true
    /\ (Qabs (PyFloat.value x - v) < eps)%Q.


(** An [InfoMessage] whose duration is infinite. *)
Definition infinite_duration_message : InfoMessage pynum :=
  {| training_type := "Running";
     info_duration := PFloat infinity;
     distance := PFloat (f64 1 0);
     speed := PFloat (f64 1 0);
     calories := PFloat (f64 1 0) |}.

(** The [InfoMessage] of the package RUN [15000, 1, 75]. *)
Definition running_message : InfoMessage pynum :=
  {| training_type := "Running";
     info_duration := PInt 1;
     distance := PFloat (f64 975 2);
     speed := PFloat (f64 975 2);
     calories := PFloat (f64 797805 3) |}.

(** ** The batch, with its output *)

(** The [for] loop of the [__main__] block over any list of packages: the
    lines printed, in order, and the exception that ended the run, if any.
    A line printed before the failure stays printed. *)
Fixpoint run_batch `{Libm} (ps : list (string * list pynum))
    : list string * option exn :=
  match ps with
  | [] => ([], None)
  | (workout_type, data) :: rest =>
      match rbind (read_package workout_type data) main with
      | Raise e => ([], Some e)
      | Ok line =>
          let (out, e) := run_batch rest in (line :: out, e)
      end
  end.

(** ** More vocabulary *)

(** [float(x) == 0.0]. *)
Definition py_is_zero (x : pynum) : bool :=
  match py_float x with
  | Ok f => PyFloat.is_zero f
  | Raise _ => false
  end.

(** [float(x)] succeeds. *)
Definition converts (x : pynum) : bool :=
  match py_float x with
  | Ok _ => true
  | Raise _ => false
  end.

(** What [get_mean_speed] divides by the duration: the distance, or for
    Swimming the length swum in kilometres. *)
Definition speed_dividend {num : Type} `{Arith num} (t : training num)
    : result num :=
  match t with
  | Swimming _ _ _ length_pool count_pool =>
      ($length_pool * $count_pool / $M_IN_KM)%py
  | _ => get_distance t
  end.







(** The outcome is a value or one of the two arithmetic exceptions. *)
Definition arith_outcome {A : Type} (r : result A) : Prop :=
  match r with
  | Ok _ | Raise ZeroDivisionError | Raise OverflowError => True
  | Raise _ => False
  end.

(** The outcome of a package: a printed line, the [ValueError] of
    [read_package], or an arithmetic exception. *)
Definition package_outcome (r : result string) : Prop :=
  match r with
  | Ok _ | Raise ZeroDivisionError | Raise OverflowError
  | Raise (ValueError _) => True
  | Raise _ => False
  end.

(** * Properties *)

(** ** Generic facts *)

Lemma append_empty_r (a : string) : a ++ "" = a.
Proof. induction a as [|x a IH]; simpl; [reflexivity | now rewrite IH]. Qed.

(** *** The templates, parsed *)

Lemma WORKOUT_TYPE_ERROR_pieces :
  parse_template WORKOUT_TYPE_ERROR (InText "")
  = Ok [Lit "Тип тренировки "; Field "" SpecDefault; Lit " не найден"].
Proof. vm_compute. reflexivity. Qed.

Lemma WORKOUT_LEN_ERROR_pieces :
  parse_template WORKOUT_LEN_ERROR (InText "")
  = Ok [Lit "Неверное число аргументов тренировки "; Field "" SpecDefault;
        Lit ". Получено "; Field "" SpecDefault;
        Lit ", ожидается "; Field "" SpecDefault].
Proof. vm_compute. reflexivity. Qed.

Lemma INFO_pieces :
  parse_template INFO (InText "")
  = Ok [Lit "Тип тренировки: "; Field "training_type" SpecDefault;
        Lit "; Длительность: "; Field "duration" (SpecFixed 3);
        Lit " ч.; Дистанция: "; Field "distance" (SpecFixed 3);
        Lit " км; Ср. скорость: "; Field "speed" (SpecFixed 3);
        Lit " км/ч; Потрачено ккал: "; Field "calories" (SpecFixed 3);
        Lit "."].
Proof. vm_compute. reflexivity. Qed.


Section ReadPackage.
Context {num : Type} `{Arith num}.

Lemma format_type_error (code : string) :
  str_format (num := num) WORKOUT_TYPE_ERROR [VStr code] []
  = Ok (type_error_text code).
Proof.
  unfold str_format. rewrite WORKOUT_TYPE_ERROR_pieces. reflexivity.
Qed.

Lemma format_len_error (code : string) (received expected : nat) :
  str_format (num := num) WORKOUT_LEN_ERROR
    [VStr code; VLen received; VLen expected] []
  = Ok (len_error_text code received expected).
Proof.
  unfold str_format. rewrite WORKOUT_LEN_ERROR_pieces.
  unfold len_error_text. cbn. now rewrite append_empty_r.
Qed.

(** *** The registry *)

Lemma TRAINING_DATA_SWM : TRAINING_DATA !! "SWM" = Some (SwimmingCls, 5).
Proof. reflexivity. Qed.

Lemma TRAINING_DATA_RUN : TRAINING_DATA !! "RUN" = Some (RunningCls, 3).
Proof. reflexivity. Qed.

Lemma TRAINING_DATA_WLK : TRAINING_DATA !! "WLK" = Some (SportsWalkingCls, 4).
Proof. reflexivity. Qed.

Lemma TRAINING_DATA_registered (code : string) (c : cls) :
  In (code, c) [("SWM", SwimmingCls); ("RUN", RunningCls);
                ("WLK", SportsWalkingCls)] ->
  TRAINING_DATA !! code = Some (c, length (fields c)).
Proof.
  intros [E | [E | [E | []]]]; inversion E; subst; reflexivity.
Qed.

Lemma TRAINING_DATA_unknown (code : string) :
  ~ In code ["SWM"; "RUN"; "WLK"] -> TRAINING_DATA !! code = None.
Proof.
  intros Hn. unfold TRAINING_DATA.
  rewrite !lookup_insert_ne, lookup_singleton_ne; [reflexivity | ..];
    intros E; apply Hn; subst; simpl; auto.
Qed.

Lemma read_package_unknown (code : string) (data : list num) :
  ~ In code ["SWM"; "RUN"; "WLK"] ->
  read_package code data = Raise (ValueError (type_error_text code)).
Proof.
  intros Hn. unfold read_package.
  rewrite (TRAINING_DATA_unknown code Hn), format_type_error. reflexivity.
Qed.

Lemma type_error_is_not_len_error (code code' : string) (n m : nat) :
  type_error_text code <> len_error_text code' n m.
Proof. unfold type_error_text, len_error_text. simpl. discriminate. Qed.

(** Every entry of the registry pairs a class with its number of fields. *)
Lemma TRAINING_DATA_entry (code : string) (c : cls) (n : nat) :
  TRAINING_DATA !! code = Some (c, n) -> n = length (fields c).
Proof.
  unfold TRAINING_DATA. intros E.
  apply lookup_insert_Some in E as [[_ E] | [_ E]];
    [now inversion E |].
  apply lookup_insert_Some in E as [[_ E] | [_ E]];
    [now inversion E |].
  apply lookup_singleton_Some in E as [_ E]. now inversion E.
Qed.

Lemma init_fields (c : cls) (data : list num) :
  length data = length (fields c) -> exists t, init c data = Ok t.
Proof.
  intros Hlen. destruct c; simpl in Hlen;
    repeat (destruct data as [|? data]; try discriminate Hlen);
    eexists; reflexivity.
Qed.

(** [read_package] returns an instance or raises a [ValueError]: the
    [TypeError] of a miscounted constructor call cannot happen. *)
Lemma read_package_outcome (code : string) (data : list num) :
  (exists t, read_package code data = Ok t)
  \/ (exists msg, read_package code data = Raise (ValueError msg)).
Proof.
  unfold read_package.
  destruct (TRAINING_DATA !! code) as [[c n] |] eqn:E.
  - rewrite format_len_error.
    destruct (Nat.eqb_spec n (length data)) as [En | _]; simpl.
    + left. apply init_fields.
      now rewrite <- En, (TRAINING_DATA_entry code c n E).
    + right. eexists. reflexivity.
  - rewrite format_type_error. right. eexists. reflexivity.
Qed.

End ReadPackage.

(** ** [read_package] *)

(** C1. For each registered code and each argument list of the length the
    class requires, [read_package] returns an instance of the class the
    code stands for (SWM: Swimming, RUN: Running, WLK: SportsWalking), whose
    fields are the arguments taken positionally in declaration order, the
    base fields [action], [duration], [weight] first. *)
Theorem read_package_builds_instance
    {num : Type} `{Arith num} (code : string) (c : cls) (data : list num) :
  In (code, c) [("SWM", SwimmingCls); ("RUN", RunningCls);
                ("WLK", SportsWalkingCls)] ->
  length data = length (fields c) ->
  exists t : training num,
    read_package code data = Ok t
    /\ class_of t = c
    /\ asdict t = zip (fields c) data
    /\ fields c = (["action"; "duration"; "weight"] ++ own_fields c)%list.
Proof.
  intros Hreg Hlen. unfold read_package.
  rewrite (TRAINING_DATA_registered code c Hreg), Hlen, Nat.eqb_refl. simpl.
  destruct Hreg as [E | [E | [E | []]]]; inversion E; subst; clear E;
    simpl in Hlen;
    repeat (destruct data as [|? data]; try discriminate Hlen);
    eexists; repeat split.
Qed.

Lemma read_package_builds_instance_witness :
  exists t : training pynum,
    read_package "SWM" [PInt 720; PInt 1; PInt 80; PInt 25; PInt 40] = Ok t
    /\ class_of t = SwimmingCls
    /\ asdict t = zip (fields SwimmingCls)
                     [PInt 720; PInt 1; PInt 80; PInt 25; PInt 40]
    /\ fields SwimmingCls
       = (["action"; "duration"; "weight"] ++ own_fields SwimmingCls)%list.
Proof.
  apply (read_package_builds_instance "SWM" SwimmingCls).
  - simpl. auto.
  - reflexivity.
Defined.

(** C2. For a code outside SWM, RUN, WLK, whatever the arguments,
    [read_package] raises the [ValueError] built from
    [WORKOUT_TYPE_ERROR], whose text names the code. *)
Theorem read_package_unknown_type
    {num : Type} `{Arith num} (code : string) (data : list num) :
  ~ In code ["SWM"; "RUN"; "WLK"] ->
  read_package code data
  = Raise (ValueError ("Тип тренировки " ++ code ++ " не найден")).
Proof. apply read_package_unknown. Qed.

Lemma read_package_unknown_type_witness :
  read_package "XYZ" [PInt 1; PInt 2; PInt 3]
  = Raise (ValueError ("Тип тренировки " ++ "XYZ" ++ " не найден")).
Proof.
  apply read_package_unknown_type.
  simpl. intros [E | [E | [E | []]]]; discriminate E.
Defined.

(** C3. For a registered code and an argument list whose length is not
    the number of fields of its class (3 for Running, 4 for SportsWalking,
    5 for Swimming), shorter or longer, [read_package] raises the
    [ValueError] built from [WORKOUT_LEN_ERROR]: its text gives the code,
    the number of arguments received and the number expected. *)
Theorem read_package_wrong_length
    {num : Type} `{Arith num} (code : string) (c : cls) (data : list num) :
  In (code, c) [("SWM", SwimmingCls); ("RUN", RunningCls);
                ("WLK", SportsWalkingCls)] ->
  length data <> length (fields c) ->
  read_package code data
  = Raise (ValueError
      ("Неверное число аргументов тренировки " ++ code
       ++ ". Получено " ++ str_of_Z (Z.of_nat (length data))
       ++ ", ожидается " ++ str_of_Z (Z.of_nat (length (fields c)))))
  /\ length (fields RunningCls) = 3%nat
  /\ length (fields SportsWalkingCls) = 4%nat
  /\ length (fields SwimmingCls) = 5%nat.
Proof.
  intros Hreg Hlen. split; [| repeat split].
  unfold read_package.
  rewrite (TRAINING_DATA_registered code c Hreg), format_len_error.
  destruct (Nat.eqb_spec (length (fields c)) (length data)) as [E | _].
  - now elim Hlen.
  - reflexivity.
Qed.

Lemma read_package_wrong_length_witness :
  (read_package "RUN" [PInt 15000; PInt 1]
   = Raise (ValueError
       "Неверное число аргументов тренировки RUN. Получено 2, ожидается 3"))
  /\ (read_package "RUN" [PInt 15000; PInt 1; PInt 75; PInt 180]
      = Raise (ValueError
          "Неверное число аргументов тренировки RUN. Получено 4, ожидается 3")).
Proof.
  split.
  - apply (read_package_wrong_length "RUN" RunningCls [PInt 15000; PInt 1]).
    + simpl. auto.
    + simpl. lia.
  - apply (read_package_wrong_length "RUN" RunningCls
             [PInt 15000; PInt 1; PInt 75; PInt 180]).
    + simpl. auto.
    + simpl. lia.
Defined.

(** C9. The code is checked before the length: for a code outside the
    registry the outcome is the unknown-type [ValueError] whatever the
    argument list, so two lists of any lengths give the same outcome, and
    that outcome is never a wrong-length error. *)
Theorem unknown_type_checked_before_length
    {num : Type} `{Arith num} (code : string) (data data' : list num) :
  ~ In code ["SWM"; "RUN"; "WLK"] ->
  read_package code data
  = Raise (ValueError ("Тип тренировки " ++ code ++ " не найден"))
  /\ read_package code data = read_package code data'
  /\ forall (code' : string) (received expected : nat),
       read_package code data
       <> Raise (ValueError (len_error_text code' received expected)).
Proof.
  intros Hn. rewrite !(read_package_unknown code _ Hn). repeat split.
  intros code' n m E.
  apply (type_error_is_not_len_error code code' n m).
  exact (f_equal (fun r : result (training num) =>
                    match r with Raise (ValueError s) => s | _ => "" end) E).
Qed.

Lemma unknown_type_checked_before_length_witness :
  read_package "XYZ" [PInt 1]
  = Raise (ValueError ("Тип тренировки " ++ "XYZ" ++ " не найден"))
  /\ read_package "XYZ" [PInt 1] = read_package "XYZ" [PInt 1; PInt 2; PInt 3; PInt 4]
  /\ forall (code' : string) (received expected : nat),
       read_package "XYZ" [PInt 1]
       <> Raise (ValueError (len_error_text code' received expected)).
Proof.
  apply unknown_type_checked_before_length.
  simpl. intros [E | [E | [E | []]]]; discriminate E.
Defined.

(** ** Python arithmetic on float operands *)

Lemma is_pos_not_zero (f : float) :
  PyFloat.is_pos f = true -> PyFloat.is_zero f = false.
Proof.
  unfold PyFloat.is_pos, PyFloat.is_zero.
  destruct (Prim2SF f) as [s | s | | s m e]; try reflexivity; discriminate.
Qed.

Lemma py_float_int_18 : py_float (PInt 18) = Ok (PyFloat.literal 18 0).
Proof. vm_compute. reflexivity. Qed.

Lemma py_float_int_60 : py_float (PInt 60) = Ok (PyFloat.literal 60 0).
Proof. vm_compute. reflexivity. Qed.

Lemma py_float_int_100 : py_float (PInt 100) = Ok (PyFloat.literal 100 0).
Proof. vm_compute. reflexivity. Qed.

Lemma py_float_int_1000 : py_float (PInt 1000) = Ok (PyFloat.literal 1000 0).
Proof. vm_compute. reflexivity. Qed.

Lemma py_float_int_2 : py_float (PInt 2) = Ok (PyFloat.literal 2 0).
Proof. vm_compute. reflexivity. Qed.

Lemma literal_100_not_zero : PyFloat.is_zero (PyFloat.literal 100 0) = false.
Proof. vm_compute. reflexivity. Qed.

Lemma literal_1000_not_zero : PyFloat.is_zero (PyFloat.literal 1000 0) = false.
Proof. vm_compute. reflexivity. Qed.

Lemma py_mul_float_l (f : float) (y : pynum) (fy : float) :
  py_float y = Ok fy -> py_mul (PFloat f) y = Ok (PFloat (f * fy)).
Proof. intros E. unfold py_mul, float_op. simpl. now rewrite E. Qed.

Lemma py_mul_float_r (x : pynum) (f : float) (fx : float) :
  py_float x = Ok fx -> py_mul x (PFloat f) = Ok (PFloat (fx * f)).
Proof.
  intros E. unfold py_mul, float_op. rewrite E.
  destruct x; reflexivity.
Qed.

Lemma py_add_float_l (f : float) (y : pynum) (fy : float) :
  py_float y = Ok fy -> py_add (PFloat f) y = Ok (PFloat (f + fy)).
Proof. intros E. unfold py_add, float_op. simpl. now rewrite E. Qed.

Lemma py_add_float_r (x : pynum) (f : float) (fx : float) :
  py_float x = Ok fx -> py_add x (PFloat f) = Ok (PFloat (fx + f)).
Proof.
  intros E. unfold py_add, float_op. rewrite E.
  destruct x; reflexivity.
Qed.

Lemma py_truediv_float_l (f : float) (y : pynum) (fy : float) :
  py_float y = Ok fy -> PyFloat.is_zero fy = false ->
  py_truediv (PFloat f) y = Ok (PFloat (f / fy)).
Proof.
  intros E Hz. unfold py_truediv, float_op, PyFloat.truediv. simpl.
  rewrite E. simpl. now rewrite Hz.
Qed.

Lemma py_truediv_float_r (x : pynum) (f : float) (fx : float) :
  py_float x = Ok fx -> PyFloat.is_zero f = false ->
  py_truediv x (PFloat f) = Ok (PFloat (fx / f)).
Proof.
  intros E Hz. unfold py_truediv, float_op, PyFloat.truediv. rewrite E.
  destruct x; simpl; now rewrite Hz.
Qed.

Lemma py_truediv_float_zero (f : float) (y : pynum) (fy : float) :
  py_float y = Ok fy -> PyFloat.is_zero fy = true ->
  py_truediv (PFloat f) y = Raise ZeroDivisionError.
Proof.
  intros E Hz. unfold py_truediv, float_op, PyFloat.truediv. simpl.
  rewrite E. simpl. now rewrite Hz.
Qed.

Lemma py_pow2_float `{Libm} (x sq : float) :
  PyFloat.pow2 x = Ok sq -> py_pow2 (PFloat x) = Ok (PFloat sq).
Proof. intros E. unfold py_pow2. now rewrite E. Qed.

(** Side conditions of the rewriting lemmas above. *)
Ltac py_side :=
  first
    [ eassumption
    | exact py_float_int_18 | exact py_float_int_60 | exact py_float_int_100
    | exact py_float_int_1000 | exact py_float_int_2
    | exact literal_100_not_zero | exact literal_1000_not_zero
    | apply is_pos_not_zero; assumption
    | reflexivity ].

(** One operator of a Python expression whose operands are values. *)
Ltac py_step :=
  cbn [lift2 rbind rmap squared num_mul num_add num_truediv num_pow2
       int_lit float_lit py_arith];
  first
    [ erewrite py_mul_float_l by py_side
    | erewrite py_mul_float_r by py_side
    | erewrite py_add_float_l by py_side
    | erewrite py_add_float_r by py_side
    | erewrite py_truediv_float_l by py_side
    | erewrite py_truediv_float_r by py_side
    | erewrite py_pow2_float by py_side ].

(** ** Exact arithmetic *)

Lemma Q_truediv_nonzero (x y : Q) :
  ~ (y == 0)%Q -> Q_truediv x y = Ok (x / y)%Q.
Proof.
  intros Hy. unfold Q_truediv.
  destruct (Qeq_bool y 0) eqn:E; [| reflexivity].
  apply Qeq_bool_eq in E. contradiction.
Qed.

Ltac q_side := first [ assumption | discriminate | lra ].

Ltac q_step :=
  cbn [lift2 rbind rmap squared num_mul num_add num_truediv num_pow2
       int_lit float_lit Q_arith];
  rewrite Q_truediv_nonzero by q_side.

(** Literals as plain fractions, ready for [field]. *)
Ltac q_norm :=
  repeat match goal with
  | |- context [(10 ^ Z.of_N ?k)%Z] =>
      let v := eval vm_compute in (10 ^ Z.of_N k)%Z in
      change (10 ^ Z.of_N k)%Z with v
  end;
  unfold inject_Z.

Ltac unfold_methods :=
  unfold get_spent_calories, get_mean_speed, get_distance, LEN_STEP,
    M_IN_KM, MIN_IN_HOUR, CALORIES_MEAN_SPEED_MULTIPLIER,
    CALORIES_MEAN_SPEED_SHIFT, WEIGHT_MULTIPLIER_1, WEIGHT_MULTIPLIER_2,
    KMH_TO_MPS_MULTIPLIER, SENTIMETERS_IN_METER, MEAN_SPEED_TERM,
    WEIGHT_MULTIPLIER;
  cbn [class_of action duration weight].

(** ** The calorie formulas *)


(** C4. [Running.get_spent_calories] is
    [(18 * mean_speed + 1.79) * weight / 1000 * duration * 60] with
    [mean_speed = action * 0.65 / 1000 / duration]: as an expression of any
    arithmetic; in binary64, for fields that convert to floats and a
    duration > 0, it returns that float; over the rationals, for a
    duration > 0, it returns that number. *)
Theorem Running_get_spent_calories_formula
    {L : Libm} (a d w : pynum) (fa fd fw : float) (qa qd qw : Q) :
  py_float a = Ok fa ->
  py_float d = Ok fd ->
  py_float w = Ok fw ->
  PyFloat.is_pos fd = true ->
  (0 < qd)%Q ->
  (forall (num : Type) (A : Arith num) (a' d' w' : num),
     get_mean_speed (Running a' d' w')
     = ($a' * $(float_lit 65 2) / $(int_lit 1000) / $d')%py
     /\ get_spent_calories (Running a' d' w')
        = (($(int_lit 18)
              * ($a' * $(float_lit 65 2) / $(int_lit 1000) / $d')
              + $(float_lit 179 2))
           * $w' / $(int_lit 1000) * $d' * $(int_lit 60))%py)
  /\ get_spent_calories (Running a d w)
     = Ok (PFloat ((f64 18 0 * (fa * f64 65 2 / f64 1000 0 / fd) + f64 179 2)
                   * fw / f64 1000 0 * fd * f64 60 0)%float)
  /\ returns_Q (get_spent_calories (Running qa qd qw))
       ((18 * (qa * (65 # 100) / 1000 / qd) + (179 # 100))
        * qw / 1000 * qd * 60).
Proof.
  intros Ha Hd Hw Hpos Hq. split; [| split].
  - intros num A a' d' w'. split; reflexivity.
  - unfold_methods. repeat py_step. reflexivity.
  - unfold_methods. repeat q_step. cbn [lift2 rbind].
    eexists; split; [reflexivity |]. q_norm. field. lra.
Qed.

Lemma Running_get_spent_calories_formula_witness :
  get_spent_calories (Running (PInt 15000) (PInt 1) (PInt 75))
  = Ok (PFloat ((f64 18 0 * (f64 15000 0 * f64 65 2 / f64 1000 0 / f64 1 0)
                 + f64 179 2)
                * f64 75 0 / f64 1000 0 * f64 1 0 * f64 60 0)%float)
  /\ returns_Q (get_spent_calories (Running 15000%Q 1%Q 75%Q))
       ((18 * (15000 * (65 # 100) / 1000 / 1) + (179 # 100))
        * 75 / 1000 * 1 * 60).
Proof.
  apply (Running_get_spent_calories_formula
           (PInt 15000) (PInt 1) (PInt 75)
           (f64 15000 0) (f64 1 0) (f64 75 0) 15000%Q 1%Q 75%Q).
  - vm_compute. reflexivity.
  - vm_compute. reflexivity.
  - vm_compute. reflexivity.
  - vm_compute. reflexivity.
  - reflexivity.
Defined.





(** C6. [Swimming.get_mean_speed] is
    [length_pool * count_pool / 1000 / duration], in which neither the
    action count nor [LEN_STEP] occurs, and [Swimming.get_spent_calories]
    is [(mean_speed + 1.1) * 2 * weight * duration]: as expressions of any
    arithmetic; in binary64 for a float pool length, other fields that
    convert to floats and a duration > 0; over the rationals for a
    duration > 0. For the package SWM [720, 1, 80, 25, 40] the mean speed
    is 1.0 and the calories are 336.0 in both arithmetics; the distance is
    0.9936 exactly over the rationals and the binary64 value just below
    it in Python. *)
Theorem Swimming_overrides_formulas
    {L : Libm} (d w cp : pynum) (fd fw fc lp : float) (qd qw qlp qcp : Q) :
  py_float d = Ok fd ->
  py_float w = Ok fw ->
  py_float cp = Ok fc ->
  PyFloat.is_pos fd = true ->
  (0 < qd)%Q ->
  (forall (num : Type) (A : Arith num) (a' a'' d' w' lp' cp' : num),
     get_mean_speed (Swimming a' d' w' lp' cp')
     = ($lp' * $cp' / $(int_lit 1000) / $d')%py
     /\ get_mean_speed (Swimming a' d' w' lp' cp')
        = get_mean_speed (Swimming a'' d' w' lp' cp')
     /\ get_spent_calories (Swimming a' d' w' lp' cp')
        = ((($lp' * $cp' / $(int_lit 1000) / $d') + $(float_lit 11 1))
           * $(int_lit 2) * $w' * $d')%py)
  /\ (forall a : pynum,
        get_mean_speed (Swimming a d w (PFloat lp) cp)
        = Ok (PFloat (lp * fc / f64 1000 0 / fd)%float)
        /\ get_spent_calories (Swimming a d w (PFloat lp) cp)
           = Ok (PFloat ((lp * fc / f64 1000 0 / fd + f64 11 1)
                         * f64 2 0 * fw * fd)%float))
  /\ (forall qa : Q,
        returns_Q (get_mean_speed (Swimming qa qd qw qlp qcp))
                  (qlp * qcp / 1000 / qd)
        /\ returns_Q (get_spent_calories (Swimming qa qd qw qlp qcp))
                     ((qlp * qcp / 1000 / qd + (11 # 10)) * 2 * qw * qd))
  /\ (let t := Swimming (PInt 720) (PInt 1) (PInt 80) (PInt 25) (PInt 40) in
      read_package "SWM" [PInt 720; PInt 1; PInt 80; PInt 25; PInt 40] = Ok t
      /\ get_distance t
         = Ok (PFloat (SF2Prim (S754_finite false 8949553179510649 (-53))))
      /\ returns_near (get_distance t) (9936 # 10000) (1 # 10 ^ 15)
      /\ rbind (get_distance t) (py_format_f 4) = Ok "0.9936"
      /\ get_mean_speed t = Ok (PFloat (f64 1 0))
      /\ get_spent_calories t = Ok (PFloat (f64 336 0)))
  /\ (let t := Swimming 720%Q 1%Q 80%Q 25%Q 40%Q in
      read_package "SWM" [720%Q; 1%Q; 80%Q; 25%Q; 40%Q] = Ok t
      /\ returns_Q (get_distance t) (9936 # 10000)
      /\ returns_Q (get_mean_speed t) 1
      /\ returns_Q (get_spent_calories t) 336).
Proof.
  intros Hd Hw Hc Hpos Hq. split; [| split; [| split; [| split]]].
  - intros num A a' a'' d' w' lp' cp'. repeat split.
  - intros a. split; unfold_methods; repeat py_step; reflexivity.
  - intros qa. split; unfold_methods; repeat q_step; cbn [lift2 rbind];
      (eexists; split; [reflexivity |]); q_norm; field; lra.
  - intros t. subst t. split; [reflexivity |].
    split; [vm_compute; reflexivity |].
    split; [| repeat split; vm_compute; reflexivity].
    eexists. split; [vm_compute; reflexivity |].
    split; vm_compute; reflexivity.
  - intros t. subst t. split; [reflexivity |].
    repeat split; (eexists; split; [vm_compute; reflexivity | reflexivity]).
Qed.

Lemma Swimming_overrides_formulas_witness :
  (forall a : pynum,
     get_mean_speed (Swimming a (PInt 1) (PInt 80) (PFloat (f64 25 0)) (PInt 40))
     = Ok (PFloat (f64 25 0 * f64 40 0 / f64 1000 0 / f64 1 0)%float)
     /\ get_spent_calories
          (Swimming a (PInt 1) (PInt 80) (PFloat (f64 25 0)) (PInt 40))
        = Ok (PFloat ((f64 25 0 * f64 40 0 / f64 1000 0 / f64 1 0 + f64 11 1)
                      * f64 2 0 * f64 80 0 * f64 1 0)%float))
  /\ (forall qa : Q,
        returns_Q (get_mean_speed (Swimming qa 1%Q 80%Q 25%Q 40%Q))
                  (25 * 40 / 1000 / 1)
        /\ returns_Q (get_spent_calories (Swimming qa 1%Q 80%Q 25%Q 40%Q))
                     ((25 * 40 / 1000 / 1 + (11 # 10)) * 2 * 80 * 1)).
Proof.
  pose proof (Swimming_overrides_formulas
                (PInt 1) (PInt 80) (PInt 40)
                (f64 1 0) (f64 80 0) (f64 40 0) (f64 25 0)
                1%Q 80%Q 25%Q 40%Q) as W.
  destruct W as (_ & Wf & Wq & _).
  - vm_compute. reflexivity.
  - vm_compute. reflexivity.
  - vm_compute. reflexivity.
  - vm_compute. reflexivity.
  - reflexivity.
  - split; [exact Wf | exact Wq].
Defined.

(** ** The Running scenario *)

(** C7, as stated: the calories of RUN [15000, 1, 75] are not 798.75, not
    even within half a kilocalorie. *)
Lemma Running_scenario_not_798_75 :
  ~ (exists t : training pynum,
       read_package "RUN" [PInt 15000; PInt 1; PInt 75] = Ok t
       /\ returns_near (get_spent_calories t) (79875 # 100) (1 # 2)).
Proof.
  intros (t & Ht & x & Hx & _ & Hnear).
  assert (Et : t = Running (PInt 15000) (PInt 1) (PInt 75)).
  { vm_compute in Ht. now injection Ht as <-. }
  subst t.
  assert (Ex : x = f64 797805 3).
  { vm_compute in Hx. vm_compute. now injection Hx as <-. }
  subst x. vm_compute in Hnear. discriminate Hnear.
Qed.

(** C7, amended. For RUN [15000, 1, 75] the distance is 9.75 km and the
    mean speed 9.75 km/h, exactly in both arithmetics, and the calories are
    (18 * 9.75 + 1.79) * 75 / 1000 * 1 * 60 = 797.805: exactly over the
    rationals, the binary64 value nearest to it in Python, printed as
    797.805. *)
Theorem Running_scenario_values :
  (let t := Running (PInt 15000) (PInt 1) (PInt 75) in
   read_package "RUN" [PInt 15000; PInt 1; PInt 75] = Ok t
   /\ get_distance t = Ok (PFloat (f64 975 2))
   /\ get_mean_speed t = Ok (PFloat (f64 975 2))
   /\ get_spent_calories t = Ok (PFloat (f64 797805 3))
   /\ returns_near (get_spent_calories t) (797805 # 1000) (1 # 10 ^ 12)
   /\ rbind (get_spent_calories t) (py_format_f 3) = Ok "797.805")
  /\ (let t := Running 15000%Q 1%Q 75%Q in
      read_package "RUN" [15000%Q; 1%Q; 75%Q] = Ok t
      /\ returns_Q (get_distance t) (975 # 100)
      /\ returns_Q (get_mean_speed t) (975 # 100)
      /\ returns_Q (get_spent_calories t)
           ((18 * (975 # 100) + (179 # 100)) * 75 / 1000 * 1 * 60)
      /\ ((18 * (975 # 100) + (179 # 100)) * 75 / 1000 * 1 * 60
          == 797805 # 1000)%Q).
Proof.
  split; intros t; subst t.
  - split; [reflexivity |].
    repeat (split; [vm_compute; reflexivity |]).
    split; [| vm_compute; reflexivity].
    eexists. split; [vm_compute; reflexivity |].
    split; vm_compute; reflexivity.
  - split; [reflexivity |].
    repeat (split; [eexists; split; [vm_compute; reflexivity | reflexivity] |]).
    reflexivity.
Qed.

(** ** [InfoMessage.get_message] *)

Lemma is_digit_digit_char (d : N) : is_digit (digit_char d) = true.
Proof.
  unfold is_digit, digit_char.
  assert (Hd : (d mod 10 < 10)%N) by (apply N.mod_lt; discriminate).
  generalize dependent (d mod 10)%N. intros k Hk.
  rewrite N_ascii_embedding by lia.
  apply andb_true_intro. split; apply N.leb_le; lia.
Qed.

Lemma all_digits_uint (u : uint) :
  all_digits (NilEmpty.string_of_uint u) = true.
Proof. induction u; simpl; auto. Qed.

Lemma str_of_N_digits (n : N) :
  exists c r,
    str_of_N n = String c r /\ is_digit c = true /\ all_digits r = true.
Proof.
  unfold str_of_N, NilZero.string_of_uint.
  pose proof (all_digits_uint (N.to_uint n)) as Hall.
  destruct (N.to_uint n) as [|u|u|u|u|u|u|u|u|u|u]; simpl in *;
    eexists _, _; (split; [reflexivity |]); auto.
Qed.

Lemma fixed3_digits_app (ip : string) (d1 d2 d3 : ascii) (seen : bool) :
  all_digits ip = true ->
  (seen = true \/ ip <> "") ->
  is_digit d1 = true -> is_digit d2 = true -> is_digit d3 = true ->
  fixed3_digits (ip ++ "." ++ String d1 (String d2 (String d3 ""))) seen
  = true.
Proof.
  intros Hall Hne H1 H2 H3. revert seen Hne.
  induction ip as [|c ip IH]; intros seen Hne.
  - destruct Hne as [-> | Hne]; [| now elim Hne].
    simpl. now rewrite H1, H2, H3.
  - simpl in Hall. apply andb_prop in Hall as [Hc Hall].
    simpl. rewrite Hc. apply IH; auto.
Qed.

Lemma is_fixed3_fixed_digits (neg : bool) (n : N) :
  is_fixed3 (sign_str neg ++ fixed_digits 3 n) = true.
Proof.
  unfold fixed_digits.
  change (frac_digits 3 (n mod 10 ^ N.of_nat 3))
    with (String (digit_char (n mod 10 ^ N.of_nat 3 / 10 / 10))
            (String (digit_char (n mod 10 ^ N.of_nat 3 / 10))
               (String (digit_char (n mod 10 ^ N.of_nat 3)) ""))).
  destruct (str_of_N_digits (n / 10 ^ N.of_nat 3)) as (c & r & E & Hc & Hr).
  rewrite E.
  assert (Hbody :
    fixed3_digits
      (String c r ++ "." ++
         String (digit_char (n mod 10 ^ N.of_nat 3 / 10 / 10))
           (String (digit_char (n mod 10 ^ N.of_nat 3 / 10))
              (String (digit_char (n mod 10 ^ N.of_nat 3)) ""))) false
    = true).
  { apply fixed3_digits_app; auto using is_digit_digit_char.
    simpl. now rewrite Hc. }
  destruct neg; simpl.
  - exact Hbody.
  - destruct (Ascii.eqb_spec c "-") as [-> | _]; [discriminate Hc |].
    exact Hbody.
Qed.

Lemma format_f_fixed3 (f : float) :
  PyFloat.is_finite f = true -> is_fixed3 (PyFloat.format_f 3 f) = true.
Proof.
  unfold PyFloat.is_finite, PyFloat.format_f.
  destruct (Prim2SF f) as [s | s | | s m e]; try discriminate; intros _;
    apply is_fixed3_fixed_digits.
Qed.

Lemma py_format_f_fixed3 (x : pynum) :
  py_finite x = true ->
  exists s, py_format_f 3 x = Ok s /\ is_fixed3 s = true.
Proof.
  unfold py_finite, py_format_f.
  destruct (py_float x) as [f | e]; [| discriminate].
  intros Hf. eexists. split; [reflexivity |]. now apply format_f_fixed3.
Qed.

Lemma py_float_outcome (x : pynum) :
  (exists f, py_float x = Ok f) \/ py_float x = Raise OverflowError.
Proof.
  destruct x as [z | f]; simpl; [| eauto].
  unfold PyFloat.of_int.
  destruct (binary_normalize prec emax z 0 false); eauto.
Qed.

(** [get_message] returns a line, or lets through the [OverflowError] of
    an int field too large for a float. *)
Lemma get_message_outcome {L : Libm} (m : InfoMessage pynum) :
  (exists s, get_message m = Ok s) \/ get_message m = Raise OverflowError.
Proof.
  unfold get_message, str_format. rewrite INFO_pieces.
  cbn [rbind render info_asdict lookup_kwarg String.eqb Ascii.eqb Bool.eqb
       format_value num_format_f py_arith].
  unfold py_format_f.
  destruct (py_float_outcome (info_duration m)) as [[f1 ->] | ->];
    [| right; reflexivity].
  destruct (py_float_outcome (distance m)) as [[f2 ->] | ->];
    [| right; reflexivity].
  destruct (py_float_outcome (speed m)) as [[f3 ->] | ->];
    [| right; reflexivity].
  destruct (py_float_outcome (calories m)) as [[f4 ->] | ->];
    [| right; reflexivity].
  left. eexists. reflexivity.
Qed.

Example show_training_info_running :
  show_training_info (Running (PInt 15000) (PInt 1) (PInt 75))
  = Ok running_message.
Proof. vm_compute. reflexivity. Qed.

(** Finite readings can overflow: the calories of
    Running(10**308, 1, 1000) are infinite and print as [inf]. *)
Example overflowing_calories_print_inf :
  exists m : InfoMessage pynum,
    show_training_info (Running (PInt (10 ^ 308)) (PInt 1) (PInt 1000)) = Ok m
    /\ calories m = PFloat infinity
    /\ py_format_f 3 (calories m) = Ok "inf".
Proof.
  eexists. split; [vm_compute; reflexivity |].
  split; vm_compute; reflexivity.
Qed.

(** C8, as stated: not every [InfoMessage] is rendered with three
    decimals in each numeric field. A duration of infinity is printed as
    [inf]. *)
Lemma get_message_infinite_duration :
  ~ (forall m : InfoMessage pynum,
       exists du di sp ca : string,
         get_message m = Ok (info_text (training_type m) du di sp ca)
         /\ is_fixed3 du = true /\ is_fixed3 di = true
         /\ is_fixed3 sp = true /\ is_fixed3 ca = true).
Proof.
  intros Hall.
  destruct (Hall infinite_duration_message)
    as (du & di & sp & ca & E & Hdu & _).
  assert (E' : get_message infinite_duration_message
               = Ok (info_text "Running" "inf" "1.000" "1.000" "1.000"))
    by (vm_compute; reflexivity).
  rewrite E' in E. injection E as E.
  destruct du as [|c du]; [discriminate Hdu |].
  simpl in E. injection E as Ec _. subst c. discriminate Hdu.
Qed.

(** C8, amended. For every [InfoMessage] whose four numeric fields are
    finite (a float other than an infinity or NaN, or an int within float
    range), [get_message] returns the line of the template with each
    numeric field in fixed-point notation with exactly three digits after
    the point, whatever its magnitude. *)
Theorem get_message_fixed3 {L : Libm} (m : InfoMessage pynum) :
  py_finite (info_duration m) = true ->
  py_finite (distance m) = true ->
  py_finite (speed m) = true ->
  py_finite (calories m) = true ->
  exists du di sp ca : string,
    get_message m = Ok (info_text (training_type m) du di sp ca)
    /\ py_format_f 3 (info_duration m) = Ok du
    /\ py_format_f 3 (distance m) = Ok di
    /\ py_format_f 3 (speed m) = Ok sp
    /\ py_format_f 3 (calories m) = Ok ca
    /\ is_fixed3 du = true /\ is_fixed3 di = true
    /\ is_fixed3 sp = true /\ is_fixed3 ca = true.
Proof.
  intros H1 H2 H3 H4.
  destruct (py_format_f_fixed3 _ H1) as (du & Edu & Hdu).
  destruct (py_format_f_fixed3 _ H2) as (di & Edi & Hdi).
  destruct (py_format_f_fixed3 _ H3) as (sp & Esp & Hsp).
  destruct (py_format_f_fixed3 _ H4) as (ca & Eca & Hca).
  exists du, di, sp, ca. split; [| auto 10].
  unfold get_message, str_format. rewrite INFO_pieces.
  cbn [rbind render info_asdict lookup_kwarg String.eqb Ascii.eqb Bool.eqb
       format_value num_format_f py_arith].
  rewrite Edu, Edi, Esp, Eca. reflexivity.
Qed.

Lemma get_message_fixed3_witness :
  exists du di sp ca : string,
    get_message running_message = Ok (info_text "Running" du di sp ca)
    /\ py_format_f 3 (PInt 1) = Ok du
    /\ py_format_f 3 (PFloat (f64 975 2)) = Ok di
    /\ py_format_f 3 (PFloat (f64 975 2)) = Ok sp
    /\ py_format_f 3 (PFloat (f64 797805 3)) = Ok ca
    /\ is_fixed3 du = true /\ is_fixed3 di = true
    /\ is_fixed3 sp = true /\ is_fixed3 ca = true.
Proof.
  apply (get_message_fixed3 running_message); vm_compute; reflexivity.
Defined.

(** ** Calories and weight *)


(** ** Negation in binary64 *)
















(** ** Negating the weight *)



















(** Beyond rounding: with the factor 2.0, Running(15000, 1.0, 2e306)
    burns an infinite number of calories, while twice the calories of
    Running(15000, 1.0, 1e306) is a finite float. *)
Example calories_scaling_can_overflow :
  rbind (num_mul (PFloat (f64 2 0)) (PFloat (f64 (10 ^ 306) 0)))
    (fun kw =>
       get_spent_calories (Running (PInt 15000) (PFloat (f64 1 0)) kw))
  = Ok (PFloat infinity)
  /\ exists c : float,
       lift2 num_mul (Ok (PFloat (f64 2 0)))
         (get_spent_calories
            (Running (PInt 15000) (PFloat (f64 1 0))
               (PFloat (f64 (10 ^ 306) 0))))
       = Ok (PFloat c)
       /\ PyFloat.is_finite c = true.
Proof.
  split; [vm_compute; reflexivity |].
  eexists. split; vm_compute; reflexivity.
Qed.

(** * Further properties *)

(** ** The base class *)

(** X1. On an instance of the base class [Training], in any arithmetic,
    [get_spent_calories] raises [NotImplementedError] with the message
    naming [Training], and neither [show_training_info] nor [main] ever
    returns. *)
Theorem base_class_never_summarised
    {num : Type} `{Arith num} (a d w : num) :
  get_spent_calories (Training a d w)
  = Raise (NotImplementedError "Определите get_spent_calories в Training.")
  /\ (forall m, show_training_info (Training a d w) <> Ok m)
  /\ (forall line, main (Training a d w) <> Ok line).
Proof.
  assert (E : get_spent_calories (Training a d w)
              = Raise (NotImplementedError
                         "Определите get_spent_calories в Training.")).
  { reflexivity. }
  assert (S : forall m, show_training_info (Training a d w) <> Ok m).
  { intros m. unfold show_training_info. rewrite E.
    destruct (get_distance (Training a d w)); [| discriminate].
    destruct (get_mean_speed (Training a d w)); discriminate. }
  split; [exact E | split; [exact S |]].
  intros line. unfold main.
  destruct (show_training_info (Training a d w)) as [m | e] eqn:Em;
    [now elim (S m) | discriminate].
Qed.

(** ** Instances built by [read_package] *)

(** X2. Whatever [read_package] returns holds exactly the arguments it was
    given: the values of the instance's fields, in declaration order, are
    the argument list, the field names are those of its class, and the
    registry maps the code to that class and to the length of the list. *)
Theorem read_package_keeps_arguments
    {num : Type} `{Arith num} (code : string) (data : list num)
    (t : training num) :
  read_package code data = Ok t ->
  map snd (asdict t) = data
  /\ map fst (asdict t) = fields (class_of t)
  /\ TRAINING_DATA !! code = Some (class_of t, length data).
Proof.
  unfold read_package.
  destruct (TRAINING_DATA !! code) as [[c n] |] eqn:E.
  - rewrite format_len_error.
    destruct (Nat.eqb_spec n (length data)) as [En | _]; simpl;
      [| discriminate].
    subst n. intros Hinit.
    destruct c; simpl in Hinit;
      repeat (destruct data as [| ? data]; try discriminate Hinit);
      injection Hinit as <-; repeat split.
  - rewrite format_type_error. discriminate.
Qed.

Lemma read_package_keeps_arguments_witness :
  map snd (asdict (Running (PInt 15000) (PInt 1) (PInt 75)))
  = [PInt 15000; PInt 1; PInt 75]
  /\ map fst (asdict (Running (PInt 15000) (PInt 1) (PInt 75)))
     = fields (class_of (Running (PInt 15000) (PInt 1) (PInt 75)))
  /\ TRAINING_DATA !! "RUN"
     = Some (class_of (Running (PInt 15000) (PInt 1) (PInt 75)),
             length [PInt 15000; PInt 1; PInt 75]).
Proof.
  apply (read_package_keeps_arguments "RUN" [PInt 15000; PInt 1; PInt 75]).
  reflexivity.
Defined.

(** ** Division by zero *)

Lemma py_is_zero_float (x : pynum) :
  py_is_zero x = true ->
  exists f, py_float x = Ok f /\ PyFloat.is_zero f = true.
Proof.
  unfold py_is_zero. destruct (py_float x) as [f | e]; [eauto | discriminate].
Qed.

Lemma float_op_is_float (op : float -> float -> result float)
    (x y v : pynum) :
  float_op op x y = Ok v -> exists f, v = PFloat f.
Proof.
  unfold float_op.
  destruct (py_float x) as [a | e]; [| discriminate].
  destruct (py_float y) as [b | e]; [| discriminate].
  cbn [rbind]. destruct (op a b) as [c | e]; [| discriminate].
  intros E. injection E as <-. eauto.
Qed.

Lemma py_truediv_is_float (x y v : pynum) :
  py_truediv x y = Ok v -> exists f, v = PFloat f.
Proof.
  destruct x as [a | a], y as [b | b]; try apply float_op_is_float.
  unfold py_truediv.
  destruct (PyFloat.int_truediv a b) as [c | e]; [| discriminate].
  intros E. injection E as <-. eauto.
Qed.

Lemma speed_dividend_is_float {L : Libm} (t : training pynum) (x : pynum) :
  speed_dividend t = Ok x -> exists f, x = PFloat f.
Proof.
  destruct t as [a d w | a d w | a d w h | a d w lp cp];
    unfold speed_dividend, get_distance; cbn [lift2 rbind];
    match goal with
    | |- lift2 _ ?r _ = _ -> _ => destruct r as [v | e]; cbn [lift2 rbind]
    end;
    try discriminate; cbn [num_truediv py_arith];
    apply py_truediv_is_float.
Qed.

(** X3. The duration is never checked. [get_mean_speed] divides its
    dividend (the distance, or for Swimming
    [length_pool * count_pool / 1000]) by the duration as given. In
    binary64, on any platform and for every class, with a duration that is
    zero (0, 0.0 or -0.0): if the dividend raises, as an int too large for
    a float does, [get_mean_speed] raises that exception; if the dividend
    is computed, [get_mean_speed] raises [ZeroDivisionError], and so do
    [show_training_info] and [main] once the distance is computed. *)
Theorem zero_duration_raises {L : Libm} (t : training pynum) :
  py_is_zero (duration t) = true ->
  get_mean_speed t = (speed_dividend t / $(duration t))%py
  /\ (forall e, speed_dividend t = Raise e -> get_mean_speed t = Raise e)
  /\ (forall x, speed_dividend t = Ok x ->
        get_mean_speed t = Raise ZeroDivisionError)
  /\ (forall dist x,
        get_distance t = Ok dist -> speed_dividend t = Ok x ->
        show_training_info t = Raise ZeroDivisionError
        /\ main t = Raise ZeroDivisionError).
Proof.
  intros Hz.
  assert (E : get_mean_speed t = (speed_dividend t / $(duration t))%py).
  { now destruct t. }
  assert (Hs : forall x, speed_dividend t = Ok x ->
                 get_mean_speed t = Raise ZeroDivisionError).
  { intros x Hx. rewrite E, Hx.
    destruct (speed_dividend_is_float t x Hx) as (f & ->).
    apply py_is_zero_float in Hz as (fd & Ed & Hd).
    cbn [lift2 rbind num_truediv py_arith].
    exact (py_truediv_float_zero f _ fd Ed Hd). }
  split; [exact E |]. split; [| split; [exact Hs |]].
  - intros e He. now rewrite E, He.
  - intros dist x Hd Hx.
    assert (Ei : show_training_info t = Raise ZeroDivisionError).
    { unfold show_training_info. now rewrite Hd, (Hs x Hx). }
    split; [exact Ei |]. unfold main. now rewrite Ei.
Qed.

Lemma zero_duration_raises_witness :
  get_mean_speed (Swimming (PInt 720) (PInt 0) (PInt 80) (PInt 25) (PInt 40))
  = Raise ZeroDivisionError
  /\ show_training_info
       (Swimming (PInt 720) (PInt 0) (PInt 80) (PInt 25) (PInt 40))
     = Raise ZeroDivisionError
  /\ main (Swimming (PInt 720) (PInt 0) (PInt 80) (PInt 25) (PInt 40))
     = Raise ZeroDivisionError.
Proof.
  destruct (zero_duration_raises
              (Swimming (PInt 720) (PInt 0) (PInt 80) (PInt 25) (PInt 40)))
    as (_ & _ & Hs & Hm).
  - vm_compute. reflexivity.
  - split.
    + apply (Hs (PFloat (f64 1 0))). vm_compute. reflexivity.
    + apply (Hm (PFloat (SF2Prim (S754_finite false 8949553179510649 (-53))))
                (PFloat (f64 1 0))); vm_compute; reflexivity.
Defined.

(** X4. The height is never checked either, and in binary64 a positive
    height is not enough: the height in metres [height / 100] can
    underflow to zero. For a float duration > 0, a weight and an action
    that convert to floats and a squared speed that does not overflow,
    on any platform, [SportsWalking.get_spent_calories] raises
    [ZeroDivisionError] whenever [height / 100] is zero, as for the
    smallest positive float. *)
Theorem SportsWalking_height_underflow
    {L : Libm} (a w : pynum) (fa fd fw h sq : float) :
  py_float a = Ok fa ->
  py_float w = Ok fw ->
  PyFloat.is_pos fd = true ->
  PyFloat.is_zero (h / f64 100 0) = true ->
  PyFloat.pow2 (fa * f64 65 2 / f64 1000 0 / fd * f64 278 3) = Ok sq ->
  get_spent_calories (SportsWalking a (PFloat fd) w (PFloat h))
  = Raise ZeroDivisionError.
Proof.
  intros Ha Hw Hpos Hm Hs.
  unfold_methods. repeat py_step.
  cbn [lift2 rbind num_truediv py_arith].
  now erewrite py_truediv_float_zero by (reflexivity || exact Hm).
Qed.

Lemma SportsWalking_height_underflow_witness :
  PyFloat.is_pos (SF2Prim (S754_finite false 1 (-1074))) = true
  /\ get_spent_calories
       (SportsWalking (PInt 9000) (PFloat (f64 1 0)) (PInt 75)
          (PFloat (SF2Prim (S754_finite false 1 (-1074)))))
     = Raise ZeroDivisionError.
Proof.
  split; [vm_compute; reflexivity |].
  eapply (SportsWalking_height_underflow
            (PInt 9000) (PInt 75) (f64 9000 0) (f64 1 0) (f64 75 0)).
  - vm_compute. reflexivity.
  - vm_compute. reflexivity.
  - vm_compute. reflexivity.
  - vm_compute. reflexivity.
  - vm_compute. reflexivity.
Defined.

(** ** When the calories are defined *)

Lemma not_zero_false (f : float) :
  PyFloat.is_zero f <> true -> PyFloat.is_zero f = false.
Proof. now destruct (PyFloat.is_zero f). Qed.

Ltac py_zero_division :=
  cbn [lift2 rbind num_truediv num_mul num_add py_arith];
  erewrite py_truediv_float_zero by eassumption; reflexivity.

(** X5. In binary64, on any platform, for an action count, a duration, a
    weight and a lap count that convert to floats, the calorie methods
    fail only as follows, negative readings being accepted. Running, and
    Swimming with a float pool length, return a value exactly when the
    duration is not zero, and raise [ZeroDivisionError] when it is.
    SportsWalking with a float duration and a float height returns a
    value exactly when the duration is not zero, the squared speed has not
    overflowed and [height / 100] is not zero; it raises
    [ZeroDivisionError] for a zero duration, else [OverflowError] for an
    overflowing square, else [ZeroDivisionError] for a zero
    [height / 100]. *)
Theorem calories_defined_iff
    {L : Libm} (a d w cp : pynum) (fa fd fw fc h lp : float) :
  py_float a = Ok fa ->
  py_float d = Ok fd ->
  py_float w = Ok fw ->
  py_float cp = Ok fc ->
  let speed_mps := (fa * f64 65 2 / f64 1000 0 / fd * f64 278 3)%float in
  ((exists c, get_spent_calories (Running a d w) = Ok c)
   <-> PyFloat.is_zero fd = false)
  /\ (PyFloat.is_zero fd = true ->
      get_spent_calories (Running a d w) = Raise ZeroDivisionError)
  /\ ((exists c, get_spent_calories (Swimming a d w (PFloat lp) cp) = Ok c)
      <-> PyFloat.is_zero fd = false)
  /\ (PyFloat.is_zero fd = true ->
      get_spent_calories (Swimming a d w (PFloat lp) cp)
      = Raise ZeroDivisionError)
  /\ ((exists c,
         get_spent_calories (SportsWalking a (PFloat fd) w (PFloat h)) = Ok c)
      <-> PyFloat.is_zero fd = false
          /\ (exists sq, PyFloat.pow2 speed_mps = Ok sq)
          /\ PyFloat.is_zero (h / f64 100 0) = false)
  /\ (PyFloat.is_zero fd = true ->
      get_spent_calories (SportsWalking a (PFloat fd) w (PFloat h))
      = Raise ZeroDivisionError)
  /\ (PyFloat.is_zero fd = false ->
      PyFloat.pow2 speed_mps = Raise OverflowError ->
      get_spent_calories (SportsWalking a (PFloat fd) w (PFloat h))
      = Raise OverflowError)
  /\ (PyFloat.is_zero fd = false ->
      (exists sq, PyFloat.pow2 speed_mps = Ok sq) ->
      PyFloat.is_zero (h / f64 100 0) = true ->
      get_spent_calories (SportsWalking a (PFloat fd) w (PFloat h))
      = Raise ZeroDivisionError).
Proof.
  intros Ha Hd Hw Hc speed_mps.
  assert (R0 : PyFloat.is_zero fd = true ->
               get_spent_calories (Running a d w) = Raise ZeroDivisionError).
  { intros Hz. unfold_methods. repeat py_step. py_zero_division. }
  assert (R1 : PyFloat.is_zero fd = false ->
               exists c, get_spent_calories (Running a d w) = Ok c).
  { intros Hz. unfold_methods. repeat py_step. eexists. reflexivity. }
  assert (S0 : PyFloat.is_zero fd = true ->
               get_spent_calories (Swimming a d w (PFloat lp) cp)
               = Raise ZeroDivisionError).
  { intros Hz. unfold_methods. repeat py_step. py_zero_division. }
  assert (S1 : PyFloat.is_zero fd = false ->
               exists c,
                 get_spent_calories (Swimming a d w (PFloat lp) cp) = Ok c).
  { intros Hz. unfold_methods. repeat py_step. eexists. reflexivity. }
  assert (W0 : PyFloat.is_zero fd = true ->
               get_spent_calories (SportsWalking a (PFloat fd) w (PFloat h))
               = Raise ZeroDivisionError).
  { intros Hz. unfold_methods. repeat py_step.
    cbn [lift2 rbind num_truediv num_mul num_add py_arith].
    erewrite py_truediv_float_zero by (reflexivity || eassumption).
    reflexivity. }
  assert (W1 : forall e, PyFloat.is_zero fd = false ->
               PyFloat.pow2 speed_mps = Raise e ->
               get_spent_calories (SportsWalking a (PFloat fd) w (PFloat h))
               = Raise e).
  { intros e Hz Hs. subst speed_mps. unfold_methods. repeat py_step.
    cbn [lift2 rbind rmap squared num_pow2 py_arith py_pow2].
    unfold f64 in Hs. now rewrite Hs. }
  assert (W2 : forall sq, PyFloat.is_zero fd = false ->
               PyFloat.pow2 speed_mps = Ok sq ->
               PyFloat.is_zero (h / f64 100 0) = true ->
               get_spent_calories (SportsWalking a (PFloat fd) w (PFloat h))
               = Raise ZeroDivisionError).
  { intros sq Hz Hs Hm. subst speed_mps. unfold_methods. repeat py_step.
    cbn [lift2 rbind num_truediv py_arith].
    now erewrite py_truediv_float_zero by (reflexivity || exact Hm). }
  assert (W3 : forall sq, PyFloat.is_zero fd = false ->
               PyFloat.pow2 speed_mps = Ok sq ->
               PyFloat.is_zero (h / f64 100 0) = false ->
               exists c,
                 get_spent_calories (SportsWalking a (PFloat fd) w (PFloat h))
                 = Ok c).
  { intros sq Hz Hs Hm. subst speed_mps. unfold_methods. repeat py_step.
    eexists. reflexivity. }
  split; [split; [| exact R1] |].
  { intros (c & E). apply not_zero_false. intros Hz.
    rewrite (R0 Hz) in E. discriminate E. }
  split; [exact R0 |].
  split; [split; [| exact S1] |].
  { intros (c & E). apply not_zero_false. intros Hz.
    rewrite (S0 Hz) in E. discriminate E. }
  split; [exact S0 |].
  split; [split |].
  { intros (c & E).
    destruct (PyFloat.is_zero fd) eqn:Hz.
    { rewrite (W0 eq_refl) in E. discriminate E. }
    destruct (PyFloat.pow2 speed_mps) as [sq | e] eqn:Hs.
    2: { rewrite (W1 e eq_refl eq_refl) in E. discriminate E. }
    destruct (PyFloat.is_zero (h / f64 100 0)) eqn:Hm.
    { rewrite (W2 sq eq_refl eq_refl eq_refl) in E. discriminate E. }
    repeat split. now exists sq. }
  { intros (Hz & (sq & Hs) & Hm). exact (W3 sq Hz Hs Hm). }
  split; [exact W0 |].
  split; [intros Hz Hs; exact (W1 _ Hz Hs) |].
  intros Hz (sq & Hs) Hm. exact (W2 sq Hz Hs Hm).
Qed.

Lemma calories_defined_iff_witness :
  (exists c,
     get_spent_calories (Running (PInt 9000) (PInt (-1)) (PInt 75)) = Ok c)
  /\ (exists c,
        get_spent_calories
          (Swimming (PInt 9000) (PInt (-1)) (PInt 75) (PFloat (f64 25 0))
             (PInt 40))
        = Ok c)
  /\ (exists c,
        get_spent_calories
          (SportsWalking (PInt 9000) (PFloat (f64 (-1) 0)) (PInt 75)
             (PFloat (f64 180 0)))
        = Ok c).
Proof.
  destruct (calories_defined_iff
              (PInt 9000) (PInt (-1)) (PInt 75) (PInt 40)
              (f64 9000 0) (f64 (-1) 0) (f64 75 0) (f64 40 0)
              (f64 180 0) (f64 25 0))
    as ((_ & R) & _ & (_ & S) & _ & (_ & W) & _).
  - vm_compute. reflexivity.
  - vm_compute. reflexivity.
  - vm_compute. reflexivity.
  - vm_compute. reflexivity.
  - split; [apply R; vm_compute; reflexivity |].
    split; [apply S; vm_compute; reflexivity |].
    apply W. split; [vm_compute; reflexivity |].
    split; [eexists; vm_compute; reflexivity | vm_compute; reflexivity].
Defined.

(** ** Distance *)

(** X7. [get_distance] depends on the action count and the class only: in
    binary64 it returns [float(action) * LEN_STEP / 1000], with 1.38 for
    Swimming and 0.65 for the other classes, exactly when the action count
    converts to a float, and raises [OverflowError] for an int beyond the
    float range; the duration, even zero, plays no part. *)
Theorem get_distance_by_class {L : Libm} (t : training pynum) :
  (forall fa : float,
     py_float (action t) = Ok fa ->
     get_distance t
     = Ok (PFloat (fa * (match class_of t with
                         | SwimmingCls => f64 138 2
                         | _ => f64 65 2
                         end) / f64 1000 0)%float))
  /\ (py_float (action t) = Raise OverflowError ->
      get_distance t = Raise OverflowError)
  /\ ((exists x, get_distance t = Ok x) <-> converts (action t) = true).
Proof.
  assert (H1 : forall fa : float,
     py_float (action t) = Ok fa ->
     get_distance t
     = Ok (PFloat (fa * (match class_of t with
                         | SwimmingCls => f64 138 2
                         | _ => f64 65 2
                         end) / f64 1000 0)%float)).
  { intros fa Ea.
    destruct t as [a d w | a d w | a d w h | a d w lp cp]; simpl in Ea;
      unfold_methods; repeat py_step; reflexivity. }
  assert (H2 : py_float (action t) = Raise OverflowError ->
               get_distance t = Raise OverflowError).
  { intros Ea.
    destruct t as [a d w | a d w | a d w h | a d w lp cp]; simpl in Ea;
      unfold_methods;
      cbn [lift2 rbind num_mul num_truediv float_lit int_lit py_arith];
      destruct a as [z | f]; try discriminate Ea;
      unfold py_mul, float_op; now rewrite Ea. }
  split; [exact H1 | split; [exact H2 |]].
  unfold converts.
  destruct (py_float_outcome (action t)) as [[fa Ea] | Ea].
  - rewrite Ea. split; [intros _; reflexivity |].
    intros _. eexists. exact (H1 fa Ea).
  - rewrite Ea. split; [| discriminate].
    intros (x & Ex). rewrite (H2 Ea) in Ex. discriminate Ex.
Qed.

Lemma get_distance_by_class_witness :
  get_distance (Swimming (PInt 720) (PInt 0) (PInt 80) (PInt 25) (PInt 40))
  = Ok (PFloat (f64 720 0 * f64 138 2 / f64 1000 0)%float)
  /\ get_distance (Running (PInt (10 ^ 400)) (PInt 1) (PInt 75))
     = Raise OverflowError.
Proof.
  split.
  - apply (proj1 (get_distance_by_class
                    (Swimming (PInt 720) (PInt 0) (PInt 80) (PInt 25)
                       (PInt 40)))).
    vm_compute. reflexivity.
  - apply (proj1 (proj2 (get_distance_by_class
                           (Running (PInt (10 ^ 400)) (PInt 1) (PInt 75))))).
    vm_compute. reflexivity.
Defined.

(** ** The printed line *)

Lemma get_message_text
    {L : Libm} (m : InfoMessage pynum) (du di sp ca : string) :
  py_format_f 3 (info_duration m) = Ok du ->
  py_format_f 3 (distance m) = Ok di ->
  py_format_f 3 (speed m) = Ok sp ->
  py_format_f 3 (calories m) = Ok ca ->
  get_message m = Ok (info_text (training_type m) du di sp ca).
Proof.
  intros Edu Edi Esp Eca.
  unfold get_message, str_format. rewrite INFO_pieces.
  cbn [rbind render info_asdict lookup_kwarg String.eqb Ascii.eqb Bool.eqb
       format_value num_format_f py_arith].
  rewrite Edu, Edi, Esp, Eca. reflexivity.
Qed.

(** X9. When the three computations of an instance return, the line that
    [main] prints is the template filled with the name of the instance's
    class, the duration reading as given, the distance, the mean speed and
    the calories, each number in its [.3f] rendering; the duration is
    printed from the field itself, int or float. *)
Theorem main_prints_summary
    {L : Libm} (t : training pynum) (dist sp cal : pynum) (du di s c : string) :
  get_distance t = Ok dist ->
  get_mean_speed t = Ok sp ->
  get_spent_calories t = Ok cal ->
  py_format_f 3 (duration t) = Ok du ->
  py_format_f 3 dist = Ok di ->
  py_format_f 3 sp = Ok s ->
  py_format_f 3 cal = Ok c ->
  main t = Ok (info_text (class_name (class_of t)) du di s c).
Proof.
  intros Ed Es Ec Fdu Fdi Fs Fc.
  unfold main, show_training_info. rewrite Ed, Es, Ec.
  cbn [rbind].
  now apply get_message_text.
Qed.

Lemma main_prints_summary_witness :
  main (Running (PInt 15000) (PInt 1) (PInt 75))
  = Ok (info_text (class_name RunningCls) "1.000" "9.750" "9.750" "797.805").
Proof.
  apply (main_prints_summary (Running (PInt 15000) (PInt 1) (PInt 75))
           (PFloat (f64 975 2)) (PFloat (f64 975 2))
           (PFloat (f64 797805 3)));
    vm_compute; reflexivity.
Defined.

(** ** What a package can raise *)

Lemma py_float_arith (x : pynum) : arith_outcome (py_float x).
Proof.
  destruct (py_float_outcome x) as [[f ->] | ->]; exact I.
Qed.

Lemma float_op_arith (op : float -> float -> result float) (x y : pynum) :
  (forall a b, arith_outcome (op a b)) -> arith_outcome (float_op op x y).
Proof.
  intros Hop. unfold float_op.
  pose proof (py_float_arith x) as Hx.
  destruct (py_float x) as [a | e]; [| exact Hx].
  pose proof (py_float_arith y) as Hy.
  destruct (py_float y) as [b | e]; [| exact Hy].
  simpl. specialize (Hop a b). destruct (op a b) as [r | e]; exact Hop.
Qed.

Lemma py_add_arith (x y : pynum) : arith_outcome (py_add x y).
Proof.
  destruct x, y; try exact I; apply float_op_arith; intros; exact I.
Qed.

Lemma py_mul_arith (x y : pynum) : arith_outcome (py_mul x y).
Proof.
  destruct x, y; try exact I; apply float_op_arith; intros; exact I.
Qed.

Lemma truediv_arith (a b : float) : arith_outcome (PyFloat.truediv a b).
Proof. unfold PyFloat.truediv. destruct (PyFloat.is_zero b); exact I. Qed.

Lemma int_truediv_arith (a b : Z) :
  arith_outcome (rmap PFloat (PyFloat.int_truediv a b)).
Proof.
  unfold PyFloat.int_truediv.
  destruct b; [exact I | |];
    destruct (SFdiv prec emax (PyFloat.sf_of_Z a) _); exact I.
Qed.

Lemma py_truediv_arith (x y : pynum) : arith_outcome (py_truediv x y).
Proof.
  destruct x, y; try (apply float_op_arith; apply truediv_arith).
  apply int_truediv_arith.
Qed.

Lemma py_pow2_arith {L : Libm} (x : pynum) : arith_outcome (py_pow2 x).
Proof.
  destruct x as [z | f]; [exact I |].
  unfold py_pow2, PyFloat.pow2.
  destruct (Prim2SF f); try exact I.
  destruct (PyFloat.is_one _); [exact I |].
  destruct (libm_pow2 _) as [ix erange].
  destruct (PyFloat.adjust_erange ix erange); exact I.
Qed.

Lemma lift2_arith {A B C} (op : A -> B -> result C)
    (x : result A) (y : result B) :
  arith_outcome x -> arith_outcome y ->
  (forall a b, arith_outcome (op a b)) ->
  arith_outcome (lift2 op x y).
Proof.
  intros Hx Hy Hop. destruct x as [a | e]; [| exact Hx].
  destruct y as [b | e]; [| exact Hy]. apply Hop.
Qed.

Lemma squared_arith {L : Libm} (x : result pynum) :
  arith_outcome x -> arith_outcome (squared x).
Proof.
  intros Hx. destruct x as [a | e]; [| exact Hx]. apply py_pow2_arith.
Qed.

(** Every operator of a method keeps the outcome arithmetic. *)
Ltac arith_outcomes :=
  repeat first
    [ exact I
    | apply squared_arith
    | apply lift2_arith
    | intros; apply py_add_arith
    | intros; apply py_mul_arith
    | intros; apply py_truediv_arith ].

Lemma get_distance_arith {L : Libm} (t : training pynum) :
  arith_outcome (get_distance t).
Proof. destruct t; unfold_methods; arith_outcomes. Qed.

Lemma get_mean_speed_arith {L : Libm} (t : training pynum) :
  arith_outcome (get_mean_speed t).
Proof. destruct t; unfold_methods; arith_outcomes. Qed.

Lemma get_spent_calories_arith {L : Libm} (t : training pynum) :
  class_of t <> TrainingCls -> arith_outcome (get_spent_calories t).
Proof.
  intros Hc. destruct t; [now elim Hc | ..]; unfold_methods; arith_outcomes.
Qed.

Lemma read_package_class
    {num : Type} `{Arith num} (code : string) (data : list num)
    (t : training num) :
  read_package code data = Ok t -> class_of t <> TrainingCls.
Proof.
  unfold read_package.
  destruct (TRAINING_DATA !! code) as [[c n] |] eqn:E.
  - rewrite format_len_error.
    destruct (negb (n =? length data)%nat); [discriminate |].
    assert (Hc : c <> TrainingCls).
    { unfold TRAINING_DATA in E.
      apply lookup_insert_Some in E as [[_ E] | [_ E]];
        [inversion E; discriminate |].
      apply lookup_insert_Some in E as [[_ E] | [_ E]];
        [inversion E; discriminate |].
      apply lookup_singleton_Some in E as [_ E]. inversion E; discriminate. }
    intros Hinit.
    destruct c; [now elim Hc | ..]; simpl in Hinit;
      repeat (destruct data as [| ? data]; try discriminate Hinit);
      injection Hinit as <-; discriminate.
  - rewrite format_type_error. discriminate.
Qed.

(** X10. Processing a package, [main(read_package(code, data))], prints a
    line or raises one of three exceptions: the [ValueError] of
    [read_package], [ZeroDivisionError] or [OverflowError]. In particular
    the [NotImplementedError] of the base class and the [TypeError] of a
    miscounted constructor call cannot happen, whatever the code and the
    readings. *)
Theorem package_outcomes {L : Libm} (code : string) (data : list pynum) :
  package_outcome (rbind (read_package code data) main).
Proof.
  destruct (read_package_outcome code data) as [[t Et] | [msg Et]];
    rewrite Et; [| exact I].
  pose proof (read_package_class code data t Et) as Hc.
  cbn [rbind]. unfold main, show_training_info.
  pose proof (get_distance_arith t) as Hd.
  destruct (get_distance t) as [dist | e];
    [| destruct e; try contradiction; exact I].
  pose proof (get_mean_speed_arith t) as Hs.
  destruct (get_mean_speed t) as [sp | e];
    [| destruct e; try contradiction; exact I].
  pose proof (get_spent_calories_arith t Hc) as Hcal.
  destruct (get_spent_calories t) as [cal | e];
    [| destruct e; try contradiction; exact I].
  cbn [rbind].
  match goal with
  | |- package_outcome (get_message ?m) =>
      destruct (get_message_outcome m) as [[line ->] | ->]; exact I
  end.
Qed.

(** ** The batch loop *)

(** X11. The loop of the [__main__] block processes the packages in order
    and stops at the first exception: the output of a list followed by
    another is the output of the first and, only if the first raised
    nothing, the output of the second after it. There is one line per
    package processed, so the run is complete exactly when there are as
    many lines as packages, and the lines before a failure stay
    printed. *)
Theorem run_batch_stops_at_first_failure
    {L : Libm} (ps qs : list (string * list pynum)) :
  run_batch (ps ++ qs)
  = match run_batch ps with
    | (out, Some e) => (out, Some e)
    | (out, None) =>
        let (out', e') := run_batch qs in ((out ++ out')%list, e')
    end
  /\ (length (fst (run_batch ps)) <= length ps)%nat
  /\ (snd (run_batch ps) = None
      <-> length (fst (run_batch ps)) = length ps)
  /\ (forall out, run_packages ps = Ok out <-> run_batch ps = (out, None)).
Proof.
  induction ps as [| [code data] ps IH].
  - simpl. repeat split.
    + now destruct (run_batch qs).
    + lia.
    + intros E. now injection E as <-.
    + intros E. now injection E as <-.
  - destruct IH as (IH1 & IH2 & IH3 & IH4).
    cbn [app run_batch run_packages].
    destruct (read_package code data) as [t | e]; cbn [rbind].
    2: { repeat split; simpl; try lia; try discriminate. }
    destruct (main t) as [line | e]; cbn [rbind].
    2: { repeat split; simpl; try lia; try discriminate. }
    rewrite IH1.
    destruct (run_batch ps) as [out [e |]]; cbn [fst snd] in *.
    + repeat split; simpl; try lia; try discriminate.
      * intros E. injection E as E. apply IH3 in E. discriminate E.
      * intros E.
        destruct (run_packages ps) as [o | e']; [| discriminate E].
        pose proof (proj1 (IH4 o) eq_refl) as Ho. discriminate Ho.
    + destruct (run_batch qs) as [out' e'].
      repeat split; simpl; try lia.
      * intros _. f_equal. now apply IH3.
      * intros E.
        destruct (run_packages ps) as [o | e'']; [| discriminate E].
        simpl in E. injection E as <-.
        pose proof (proj1 (IH4 o) eq_refl) as Ho. now injection Ho as ->.
      * intros E. injection E as <-.
        now rewrite (proj2 (IH4 out) eq_refl).
Qed.


Example run_batch_unknown_code_in_the_middle :
  run_batch
    [("SWM", [PInt 720; PInt 1; PInt 80; PInt 25; PInt 40]);
     ("XYZ", [PInt 1; PInt 2; PInt 3]);
     ("RUN", [PInt 15000; PInt 1; PInt 75])]
  = (["Тип тренировки: Swimming; Длительность: 1.000 ч.; "
      ++ "Дистанция: 0.994 км; Ср. скорость: 1.000 км/ч; "
      ++ "Потрачено ккал: 336.000."],
     Some (ValueError "Тип тренировки XYZ не найден")).
Proof. vm_compute. reflexivity. Qed.
